(** * Roblox shirt generator: a shallow embedding of [app.py]

    The program is a linear pipeline: make sure the garment template is
    cached on disk, ask an external generator for an image, lay the image
    out on a 585x559 canvas (centred logo or tiled pattern) and composite
    the template on top.

    Images are 8-bit RGBA rasters.  A raster is modelled by its size and its
    pixel function; only the pixels inside the size rectangle are meaningful
    (Pillow raises [IndexError] outside), so two images are compared with
    [same_pixels], never with [=], unless they are the very same object.

    The Pillow primitives the program calls are modelled from Pillow's
    implementation: [Image.new], [Image.resize], [Image.convert],
    [ImageStat.Stat.mean], [Image.paste] (with and without mask) and
    [Image.alpha_composite]. *)

From Stdlib Require Import String ZArith List Bool Lia FinFun.
Import ListNotations.
Local Open Scope Z_scope.

(** ** Python results *)

(** The [Exception] subclasses that can reach the program. *)
Inductive PyExc : Type :=
| ZeroDivisionError
| ValueError (msg : string)
| IndexError
| FileNotFoundError
| OSError
| UnidentifiedImageError
| HTTPError
| RequestException
| APIError
| SecretNotFoundError.

(** A call returns, raises an [Exception], or is cut short by Streamlit's
    [st.stop()], whose [StopException] derives from [BaseException] and so
    passes through every [except Exception] clause. *)
Inductive Result (A : Type) : Type :=
| Ok (a : A)
| Raise (e : PyExc)
| Stopped.
Arguments Ok {A} a.
Arguments Raise {A} e.
Arguments Stopped {A}.

Definition rbind {A B} (r : Result A) (k : A -> Result B) : Result B :=
  match r with
  | Ok a => k a
  | Raise e => Raise e
  | Stopped => Stopped
  end.

Declare Scope result_scope.
Delimit Scope result_scope with result.
Notation "'let?' x ':=' c 'in' k" := (rbind c (fun x => k))
  (at level 10, x name, c at level 100, k at level 200) : result_scope.
Local Open Scope result_scope.

(** A [for] loop whose body may raise. *)
Fixpoint for_each {A S} (xs : list A) (body : S -> A -> Result S) (s : S)
  : Result S :=
  match xs with
  | [] => Ok s
  | x :: rest => let? s' := body s x in for_each rest body s'
  end.

(** Python's [range(n)] and [range(start, stop, step)] for a positive step. *)
Definition range (n : Z) : list Z :=
  map Z.of_nat (seq 0 (Z.to_nat n)).

Definition range3 (start stop step : Z) : list Z :=
  map (fun i => start + i * step) (range ((stop - start + step - 1) / step)).

(** ** Pixels and images *)

Record RGBA : Type := mkRGBA { red : Z; green : Z; blue : Z; alpha : Z }.

Definition RGB : Type := (Z * Z * Z)%type.

Record Image (P : Type) : Type := mkImage {
  size : Z * Z;             (* (width, height) *)
  pix : Z -> Z -> P         (* pixel at column x, row y *)
}.
Arguments mkImage {P} size pix.
Arguments size {P} i.
Arguments pix {P} i x y.

Definition width {P} (im : Image P) : Z := fst (size im).
Definition height {P} (im : Image P) : Z := snd (size im).

Definition size_eqb (a b : Z * Z) : bool :=
  (fst a =? fst b) && (snd a =? snd b).

Definition in_bounds {P} (im : Image P) (x y : Z) : Prop :=
  0 <= x < width im /\ 0 <= y < height im.

(** Pixel-identical images: same size, same pixel at every position. *)
Definition same_pixels {P} (a b : Image P) : Prop :=
  size a = size b /\ forall x y, in_bounds a x y -> pix a x y = pix b x y.

Definition byte_range (v : Z) : Prop := 0 <= v <= 255.

Definition valid_pixel (p : RGBA) : Prop :=
  byte_range (red p) /\ byte_range (green p) /\
  byte_range (blue p) /\ byte_range (alpha p).

(** An RGBA raster as Pillow holds it: 8-bit channels. *)
Definition valid_image (im : Image RGBA) : Prop :=
  forall x y, in_bounds im x y -> valid_pixel (pix im x y).

Definition nonempty {P} (im : Image P) : Prop :=
  0 < width im /\ 0 < height im.

(** The pixels in row-major order, as [Image.getdata] lists them. *)
Definition getdata {P} (im : Image P) : list P :=
  flat_map (fun y => map (fun x => pix im x y) (range (width im)))
           (range (height im)).

(** ** Configuration *)

Definition TEMPLATE_URL : string :=
  "https://github.com/Antosser/Roblox-Shirt-Template/blob/master/template.png?raw=true".
Definition TEMPLATE_FILENAME : string := "shirt_overlay.png".
Definition ROBLOX_WIDTH : Z := 585.
Definition ROBLOX_HEIGHT : Z := 559.

Definition LOGO_X : Z := 231.
Definition LOGO_Y : Z := 74.
Definition LOGO_SIZE : Z := 128.

Definition PATTERN_SIZE : Z := 150.

(** ** Pillow primitives *)

Module PIL.

(** Stores into 8-bit and 32-bit unsigned C variables. *)
Definition u8 (v : Z) : Z := v mod 256.
Definition u32 (v : Z) : Z := v mod 4294967296.

(** [Image.new("RGBA", size, color)]. *)
Definition new (sz : Z * Z) (color : RGBA) : Image RGBA :=
  mkImage sz (fun _ _ => color).

(** The default fill of [Image.new("RGBA", size)]: every channel zero. *)
Definition transparent_black : RGBA := mkRGBA 0 0 0 0.

(** [image.copy()]. *)
Definition copy {P} (im : Image P) : Image P := mkImage (size im) (pix im).

(** [image.convert("RGB")] of an RGBA image drops the alpha band. *)
Definition convert_RGB (im : Image RGBA) : Image RGB :=
  mkImage (size im)
          (fun x y => let p := pix im x y in (red p, green p, blue p)).

(** *** ImageStat.Stat *)

(** One band of [image.histogram()]: for each level 0..255 the number of
    pixels at that level. *)
Definition count_level (vals : list Z) (j : Z) : Z :=
  Z.of_nat (count_occ Z.eq_dec vals j).

Definition histogram_band (vals : list Z) : list Z :=
  map (count_level vals) (range 256).

Definition sumZ (l : list Z) : Z := fold_right Z.add 0 l.

(** [Stat.count] and [Stat.sum] of one band, from its histogram. *)
Definition stat_count (h : list Z) : Z := sumZ h.

Definition stat_sum (h : list Z) : Z :=
  sumZ (map (fun jh => fst jh * snd jh) (combine (range 256) h)).

(** [int(stat.mean[i])]: [mean] is the float [sum / count] and [int]
    truncates it.  Both operands are integers below 2^53 and the quotient
    is at most 255, so the nearest double of a non-integral quotient is
    still below the next integer for every image Pillow can allocate
    (fewer than 2^31 pixels): truncating the float is truncating the
    exact quotient.  A band without pixels divides by zero. *)
Definition int_mean (vals : list Z) : Result Z :=
  let h := histogram_band vals in
  if stat_count h =? 0 then Raise ZeroDivisionError
  else Ok (Z.quot (stat_sum h) (stat_count h)).

(** *** Image.paste *)

(** ImagingUtils.h: [DIV255] and [BLEND], as Paste.c uses them.  The
    weighted sum of the two bands is formed first and divided by 255 once;
    [tmp] is an [unsigned int]. *)
Definition DIV255 (a : Z) : Z :=
  let tmp := u32 (a + 128) in
  Z.shiftr (Z.shiftr tmp 8 + tmp) 8.

Definition BLEND (mask in1 in2 : Z) : Z :=
  DIV255 (in1 * (255 - mask) + in2 * mask).

(** The destination rectangle of a paste at [(dx, dy)] of an image of size
    [(xsize, ysize)], after [ImagingPaste] clips it to the destination:
    [(dx0, dy0, xsize', ysize')]. The paste does nothing when
    [xsize' <= 0] or [ysize' <= 0]. *)
Definition clip_box (dst_size src_size : Z * Z) (at_ : Z * Z)
  : Z * Z * Z * Z :=
  let '(dx0, dy0) := at_ in
  let '(xsize, ysize) := src_size in
  let '(xsize, dx0) := if dx0 <? 0 then (xsize + dx0, 0) else (xsize, dx0) in
  let xsize := if dx0 + xsize >? fst dst_size then fst dst_size - dx0
               else xsize in
  let '(ysize, dy0) := if dy0 <? 0 then (ysize + dy0, 0) else (ysize, dy0) in
  let ysize := if dy0 + ysize >? snd dst_size then snd dst_size - dy0
               else ysize in
  (dx0, dy0, xsize, ysize).

Definition in_box (box : Z * Z * Z * Z) (x y : Z) : bool :=
  let '(dx0, dy0, xsize, ysize) := box in
  (dx0 <=? x) && (x <? dx0 + xsize) && (dy0 <=? y) && (y <? dy0 + ysize).

(** [paste_mask_RGBA]: every band of the destination pixel, alpha
    included, is blended with the source under the mask's alpha. *)
Definition blend_pixel (mask out inp : RGBA) : RGBA :=
  let m := alpha mask in
  mkRGBA (u8 (BLEND m (red out) (red inp)))
         (u8 (BLEND m (green out) (green inp)))
         (u8 (BLEND m (blue out) (blue inp)))
         (u8 (BLEND m (alpha out) (alpha inp))).

(** [base.paste(im, (x, y), mask)].  The 2-tuple box is extended with
    [im.size], so the source always matches the box; a mask of another
    size is refused.  Without a mask the source pixels are copied. *)
Definition paste (base im : Image RGBA) (at_ : Z * Z)
           (mask : option (Image RGBA)) : Result (Image RGBA) :=
  let box := clip_box (size base) (size im) at_ in
  let '(ax, ay) := at_ in
  match mask with
  | None =>
      Ok (mkImage (size base)
            (fun x y => if in_box box x y then pix im (x - ax) (y - ay)
                        else pix base x y))
  | Some m =>
      if size_eqb (size m) (size im) then
        Ok (mkImage (size base)
              (fun x y =>
                 if in_box box x y
                 then blend_pixel (pix m (x - ax) (y - ay))
                                  (pix base x y)
                                  (pix im (x - ax) (y - ay))
                 else pix base x y))
      else Raise (ValueError "images do not match")
  end.

(** *** Image.alpha_composite *)

(** AlphaComposite.c, with [PRECISION_BITS = 7]. *)
Definition SHIFTFORDIV255 (a : Z) : Z := Z.shiftr (Z.shiftr a 8 + a) 8.

Definition composite_pixel (dst src : RGBA) : RGBA :=
  if alpha src =? 0 then dst
  else
    let blend := u32 (alpha dst * (255 - alpha src)) in
    let outa255 := u32 (alpha src * 255 + blend) in
    let coef1 := u32 (alpha src * 255 * 255 * 128 / outa255) in
    let coef2 := u32 (255 * 128 - coef1) in
    let tmpr := u32 (red src * coef1 + red dst * coef2) in
    let tmpg := u32 (green src * coef1 + green dst * coef2) in
    let tmpb := u32 (blue src * coef1 + blue dst * coef2) in
    mkRGBA
      (u8 (Z.shiftr (SHIFTFORDIV255 (u32 (tmpr + Z.shiftl 128 7))) 7))
      (u8 (Z.shiftr (SHIFTFORDIV255 (u32 (tmpg + Z.shiftl 128 7))) 7))
      (u8 (Z.shiftr (SHIFTFORDIV255 (u32 (tmpb + Z.shiftl 128 7))) 7))
      (u8 (SHIFTFORDIV255 (u32 (outa255 + 128)))).

(** [Image.alpha_composite(im1, im2)]: [im2] over [im1]; images of
    different sizes are refused. *)
Definition alpha_composite (im1 im2 : Image RGBA) : Result (Image RGBA) :=
  if size_eqb (size im1) (size im2) then
    Ok (mkImage (size im1)
          (fun x y => composite_pixel (pix im1 x y) (pix im2 x y)))
  else Raise (ValueError "images do not match").

(** *** Image.resize *)

Definition clip8 (v : Z) : Z :=
  if v <? 0 then 0 else if v >? 255 then 255 else v.

Definition clip_pixel (p : RGBA) : RGBA :=
  mkRGBA (clip8 (red p)) (clip8 (green p)) (clip8 (blue p)) (clip8 (alpha p)).

Section Resize.
(** The Lanczos convolution itself is floating-point code inside Pillow;
    it is left abstract: [lanczos im size x y] is the filtered value at
    [(x, y)] of [im] resampled to [size], before it is clipped to 8
    bits. *)
Variable lanczos : Image RGBA -> Z * Z -> Z -> Z -> RGBA.

(** [image.resize(size, Image.Resampling.LANCZOS)].  Pillow returns a
    plain copy when the image already has the requested size. *)
Definition resize (im : Image RGBA) (sz : Z * Z) : Image RGBA :=
  if size_eqb (size im) sz then copy im
  else mkImage sz (fun x y => clip_pixel (lanczos im sz x y)).
End Resize.

End PIL.

(** ** The world the program runs in *)

Definition bytes : Type := list Byte.byte.

(** What the template cache file holds: bytes written verbatim from an HTTP
    response, or the PNG that [Image.save] wrote for an image.  PNG is
    lossless, so a saved image is kept as the image itself. *)
Inductive FileContent : Type :=
| RawBytes (content : bytes)
| SavedPNG (img : Image RGBA).

(** The two values of the mode select box. *)
Inductive Mode : Type := LogoMode | PatternMode.

Definition mode_label (m : Mode) : string :=
  match m with
  | LogoMode => "Logo Mode"
  | PatternMode => "Pattern Mode"
  end.

(** What the program does to the outside, in order.  Progress spinners, the
    page title and the layout columns are display only and left out. *)
Inductive Event : Type :=
| HttpGet (url : string)                   (* requests.get *)
| ImagesGenerate (prompt : string)         (* client.images.generate *)
| SecretsGet (key : string)                (* st.secrets.get *)
| FileWrite (path : string)
| FileRead (path : string)
| StSuccess (msg : string)
| StInfo (msg : string)
| StWarning (msg : string) (cause : option PyExc)
| StError (msg : string) (cause : option PyExc)
| StImage (img : Image RGBA) (caption : string)
| StDownloadButton (data : FileContent) (file_name mime : string).

Record World : Type := mkWorld {
  template_file : option FileContent;   (* the file at TEMPLATE_FILENAME *)
  trace : list Event                    (* oldest first *)
}.

Record HttpResponse : Type := mkResponse {
  status_ok : bool;          (* raise_for_status() passes *)
  content : bytes
}.

(** A write either completes or raises, leaving anything at the path. *)
Inductive WriteOutcome : Type :=
| WriteOk
| WriteFails (e : PyExc) (left_behind : option FileContent).

(** How the collaborators answer during one run of the script. *)
Record Env : Type := mkEnv {
  http_get : string -> PyExc + HttpResponse;
  write_download : WriteOutcome;     (* open(.., "wb") and f.write *)
  save_placeholder : WriteOutcome;   (* placeholder.save *)
  secrets_get : PyExc + option string;
  images_generate : string -> PyExc + list string   (* urls of response.data *)
}.

(** ** Effectful code: state, trace and exceptions *)

Definition App (A : Type) : Type := World -> Result A * World.

Definition ret {A} (a : A) : App A := fun w => (Ok a, w).

Definition bind {A B} (c : App A) (k : A -> App B) : App B :=
  fun w =>
    match c w with
    | (Ok a, w') => k a w'
    | (Raise e, w') => (Raise e, w')
    | (Stopped, w') => (Stopped, w')
    end.

Declare Scope app_scope.
Delimit Scope app_scope with app.
Notation "x <- c ;; k" := (bind c (fun x => k))
  (at level 61, c at next level, right associativity) : app_scope.
Notation "c ;; k" := (bind c (fun _ => k))
  (at level 61, right associativity) : app_scope.
Local Open Scope app_scope.

Definition lift {A} (r : Result A) : App A := fun w => (r, w).

Definition of_sum {A} (r : PyExc + A) : Result A :=
  match r with
  | inl e => Raise e
  | inr a => Ok a
  end.

Definition emit (e : Event) : App unit :=
  fun w => (Ok tt, mkWorld (template_file w) (trace w ++ [e])).

(** [try: body  except Exception as e: handler e].  [st.stop()] is not an
    [Exception] and goes through. *)
Definition try_except {A} (body : App A) (handler : PyExc -> App A) : App A :=
  fun w =>
    match body w with
    | (Raise e, w') => handler e w'
    | other => other
    end.

(** [not s] for a Python string. *)
Definition py_not (s : string) : bool :=
  match s with
  | EmptyString => true
  | String _ _ => false
  end.

Definition st_success (msg : string) : App unit := emit (StSuccess msg).
Definition st_info (msg : string) : App unit := emit (StInfo msg).
Definition st_warning (msg : string) (cause : option PyExc) : App unit :=
  emit (StWarning msg cause).
Definition st_error (msg : string) (cause : option PyExc) : App unit :=
  emit (StError msg cause).
Definition st_stop {A} : App A := lift Stopped.

Definition os_path_exists : App bool :=
  fun w =>
    (Ok (match template_file w with Some _ => true | None => false end), w).

Definition requests_get (env : Env) (url : string) : App HttpResponse :=
  emit (HttpGet url) ;; lift (of_sum (http_get env url)).

Definition raise_for_status (r : HttpResponse) : App unit :=
  if status_ok r then ret tt else lift (Raise HTTPError).

Definition write_file (outcome : WriteOutcome) (data : FileContent) : App unit :=
  fun w =>
    let tr := trace w ++ [FileWrite TEMPLATE_FILENAME] in
    match outcome with
    | WriteOk => (Ok tt, mkWorld (Some data) tr)
    | WriteFails e left_behind => (Raise e, mkWorld left_behind tr)
    end.

Section Program.

Variable lanczos : Image RGBA -> Z * Z -> Z -> Z -> RGBA.

(** Decoding of image bytes to an RGBA image, that is
    [Image.open(..).convert("RGBA")] on those bytes. *)
Variable decode : bytes -> PyExc + Image RGBA.

Definition open_bytes (b : bytes) : App (Image RGBA) := lift (of_sum (decode b)).

(** [Image.open(TEMPLATE_FILENAME).convert("RGBA")]. *)
Definition open_template : App (Image RGBA) :=
  emit (FileRead TEMPLATE_FILENAME) ;;
  fun w =>
    match template_file w with
    | None => (Raise FileNotFoundError, w)
    | Some (RawBytes b) => open_bytes b w
    | Some (SavedPNG img) => (Ok (PIL.copy img), w)
    end.

(** *** Helper functions *)

Definition download_template (env : Env) : App unit :=
  found <- os_path_exists ;;
  if negb found then
    try_except
      (response <- requests_get env TEMPLATE_URL ;;
       raise_for_status response ;;
       write_file (write_download env) (RawBytes (content response)) ;;
       st_success "Template downloaded!")
      (fun e =>
         st_error "Failed to download template" (Some e) ;;
         st_info "Creating a transparent placeholder template..." ;;
         let placeholder :=
           PIL.new (ROBLOX_WIDTH, ROBLOX_HEIGHT) (mkRGBA 0 0 0 0) in
         write_file (save_placeholder env) (SavedPNG placeholder))
  else ret tt.

(** The client is represented by the key it was built with. *)
Definition get_openai_client (env : Env) : App string :=
  try_except
    (emit (SecretsGet "OPENAI_API_KEY") ;;
     api_key <- lift (of_sum (secrets_get env)) ;;
     match api_key with
     | Some key =>
         if py_not key then
           st_error "OpenAI API Key not found in .streamlit/secrets.toml" None ;;
           st_stop
         else ret key
     | None =>
         st_error "OpenAI API Key not found in .streamlit/secrets.toml" None ;;
         st_stop
     end)
    (fun e => st_error "Error initializing OpenAI" (Some e) ;; st_stop).

Definition generate_image (env : Env) (client prompt : string)
  : App (option (Image RGBA)) :=
  try_except
    (emit (ImagesGenerate prompt) ;;
     data <- lift (of_sum (images_generate env prompt)) ;;
     img_url <- lift (match data with
                      | [] => Raise IndexError
                      | url :: _ => Ok url
                      end) ;;
     img_response <- requests_get env img_url ;;
     raise_for_status img_response ;;
     img <- open_bytes (content img_response) ;;
     ret (Some img))
    (fun e => st_error "Image generation failed" (Some e) ;; ret None).

Definition get_average_color (image : Image RGBA) : Result RGB :=
  let rgb_image := PIL.convert_RGB image in
  let data := getdata rgb_image in
  let? r := PIL.int_mean (map (fun p => fst (fst p)) data) in
  let? g := PIL.int_mean (map (fun p => snd (fst p)) data) in
  let? b := PIL.int_mean (map (fun p => snd p) data) in
  Ok (r, g, b).

Definition create_logo_mode_image (ai_image : Image RGBA)
  : Result (Image RGBA) :=
  let logo := PIL.resize lanczos ai_image (LOGO_SIZE, LOGO_SIZE) in
  let? avg_color := get_average_color logo in
  let '(r, g, b) := avg_color in
  let base := PIL.new (ROBLOX_WIDTH, ROBLOX_HEIGHT) (mkRGBA r g b 255) in
  let? base := PIL.paste base logo (LOGO_X, LOGO_Y) (Some logo) in
  Ok base.

Definition create_pattern_mode_image (ai_image : Image RGBA)
  : Result (Image RGBA) :=
  let tile := PIL.resize lanczos ai_image (PATTERN_SIZE, PATTERN_SIZE) in
  let base := PIL.new (ROBLOX_WIDTH, ROBLOX_HEIGHT) PIL.transparent_black in
  let? base :=
    for_each (range3 0 ROBLOX_WIDTH PATTERN_SIZE)
      (fun base x =>
         for_each (range3 0 ROBLOX_HEIGHT PATTERN_SIZE)
           (fun base y => PIL.paste base tile (x, y) None)
           base)
      base in
  Ok base.

Definition apply_template_overlay (base_image : Image RGBA)
  : App (Image RGBA) :=
  try_except
    (overlay <- open_template ;;
     let overlay :=
       if negb (size_eqb (size overlay) (ROBLOX_WIDTH, ROBLOX_HEIGHT))
       then PIL.resize lanczos overlay (ROBLOX_WIDTH, ROBLOX_HEIGHT)
       else overlay in
     final <- lift (PIL.alpha_composite base_image overlay) ;;
     ret final)
    (fun e =>
       st_warning "Could not apply overlay" (Some e) ;;
       ret base_image).

(** *** Main app *)

(** One run of the script: [prompt], [mode] and [generate_btn] are what the
    three widgets return in this run. *)
Definition main (env : Env) (prompt : string) (mode : Mode)
           (generate_btn : bool) : App unit :=
  download_template env ;;
  if generate_btn then
    if py_not prompt then
      st_warning "Please enter a design description." None ;;
      ret tt
    else
      client <- get_openai_client env ;;
      ai_image <- generate_image env client prompt ;;
      match ai_image with
      | Some ai_image =>
          base_image <- lift (match mode with
                              | LogoMode => create_logo_mode_image ai_image
                              | PatternMode => create_pattern_mode_image ai_image
                              end) ;;
          final_image <- apply_template_overlay base_image ;;
          st_success "Shirt generated!" ;;
          emit (StImage final_image
                  (String.append "Roblox Shirt - " (mode_label mode))) ;;
          emit (StDownloadButton (SavedPNG final_image)
                  "roblox_shirt.png" "image/png")
      | None => ret tt
      end
  else ret tt.

End Program.

(** ** Vocabulary of the statements *)

(** The band of channel [ch] as [ImageStat] sees it. *)
Definition band (ch : RGBA -> Z) (im : Image RGBA) : list Z :=
  map ch (getdata im).

(** The floor of the arithmetic mean of a band. *)
Definition mean_floor (vals : list Z) : Z :=
  PIL.sumZ vals / Z.of_nat (length vals).


(** The colour of a pixel once alpha is dropped. *)
Definition rgb_of (p : RGBA) : RGB := (red p, green p, blue p).

(** Every pixel of the image has colour [c]. *)
Definition uniform_rgb (im : Image RGBA) (c : RGB) : Prop :=
  forall x y, in_bounds im x y -> rgb_of (pix im x y) = c.

Definition is_black (p : RGBA) : bool :=
  (red p =? 0) && (green p =? 0) && (blue p =? 0).

Definition is_white (p : RGBA) : bool :=
  (red p =? 255) && (green p =? 255) && (blue p =? 255).

(** Every pixel is black or white, and there are as many of each. *)
Definition half_black_half_white (im : Image RGBA) : Prop :=
  Forall (fun p => is_black p || is_white p = true) (getdata im) /\
  length (filter is_black (getdata im)) = length (filter is_white (getdata im)).

(** The mean of the bytes [out] and [inp] with weights [255 - mask] and
    [mask], rounded to the nearest integer (255 is odd: there are no
    ties). *)
Definition weighted_mean (mask out inp : Z) : Z :=
  (out * (255 - mask) + inp * mask + 127) / 255.

(** The image a mask-less paste leaves in [base]. *)
Definition pasted (tile : Image RGBA) (base : Image RGBA) (at_ : Z * Z)
  : Image RGBA :=
  mkImage (size base)
    (fun x y =>
       if PIL.in_box (PIL.clip_box (size base) (size tile) at_) x y
       then pix tile (x - fst at_) (y - snd at_) else pix base x y).

(** The rectangle the logo is pasted into: left, top, width, height. *)
Definition logo_box : Z * Z * Z * Z := (LOGO_X, LOGO_Y, LOGO_SIZE, LOGO_SIZE).

(** The positions at which the pattern loops paste a tile, in loop order. *)
Definition tile_offsets : list (Z * Z) :=
  list_prod (range3 0 ROBLOX_WIDTH PATTERN_SIZE)
            (range3 0 ROBLOX_HEIGHT PATTERN_SIZE).

(** The logo canvas for a given logo and background colour. *)
Definition logo_canvas (logo : Image RGBA) (background : RGBA) : Image RGBA :=
  mkImage (ROBLOX_WIDTH, ROBLOX_HEIGHT)
    (fun x y =>
       if PIL.in_box logo_box x y
       then let p := pix logo (x - LOGO_X) (y - LOGO_Y) in
            PIL.blend_pixel p background p
       else background).

(** Number of HTTP requests and of generator calls in a trace. *)
Definition is_http_get (e : Event) : bool :=
  match e with HttpGet _ => true | _ => false end.

Definition is_generator_call (e : Event) : bool :=
  match e with ImagesGenerate _ => true | _ => false end.

Definition http_gets (tr : list Event) : nat := length (filter is_http_get tr).

Definition generator_calls (tr : list Event) : nat :=
  length (filter is_generator_call tr).

(** Events of the part of the pipeline that follows a successful
    generation: reading the template for the overlay, and handing a canvas to
    the user. *)
Definition is_canvas_event (e : Event) : bool :=
  match e with
  | FileRead _ | StImage _ _ | StDownloadButton _ _ _ => true
  | _ => false
  end.

(** A prompt made of white space only (the empty prompt included). *)
Definition is_space (c : Ascii.ascii) : bool :=
  match Ascii.nat_of_ascii c with
  | 32%nat | 9%nat | 10%nat | 11%nat | 12%nat | 13%nat => true
  | _ => false
  end.

Fixpoint is_blank (s : string) : bool :=
  match s with
  | EmptyString => true
  | String c rest => is_space c && is_blank rest
  end.

(** Why the download attempt of [download_template] fails, if it does: the
    request raises, the status is an error, or the file cannot be written. *)
Definition download_failure (env : Env) : option PyExc :=
  match http_get env TEMPLATE_URL with
  | inl e => Some e
  | inr r =>
      if status_ok r then
        match write_download env with
        | WriteOk => None
        | WriteFails e _ => Some e
        end
      else Some HTTPError
  end.

(** What the generator collaborator yields for a prompt: an image, or the
    exception of the first step that fails (API call, missing result,
    download of the result, HTTP status, decoding). *)
Definition generation_result (decode : bytes -> PyExc + Image RGBA)
           (env : Env) (prompt : string) : PyExc + Image RGBA :=
  match images_generate env prompt with
  | inl e => inl e
  | inr [] => inl IndexError
  | inr (url :: _) =>
      match http_get env url with
      | inl e => inl e
      | inr r => if status_ok r then decode (content r) else inl HTTPError
      end
  end.

(** The requests the generator step makes before it fails or succeeds. *)
Definition generation_events (env : Env) (prompt : string) : list Event :=
  ImagesGenerate prompt ::
  match images_generate env prompt with
  | inr (url :: _) => [HttpGet url]
  | _ => []
  end.

(** Loading the overlay from the cache file. *)
Definition load_overlay (decode : bytes -> PyExc + Image RGBA)
           (file : option FileContent) : PyExc + Image RGBA :=
  match file with
  | None => inl FileNotFoundError
  | Some (RawBytes b) => decode b
  | Some (SavedPNG img) => inr (PIL.copy img)
  end.

(** The overlay as it is composited: resized when its size is not the
    canvas size. *)
Definition fit_overlay (lanczos : Image RGBA -> Z * Z -> Z -> Z -> RGBA)
           (overlay : Image RGBA) : Image RGBA :=
  if negb (size_eqb (size overlay) (ROBLOX_WIDTH, ROBLOX_HEIGHT))
  then PIL.resize lanczos overlay (ROBLOX_WIDTH, ROBLOX_HEIGHT)
  else overlay.

(** The three steps inside the [try] of [apply_template_overlay]. *)
Definition overlay_attempt (lanczos : Image RGBA -> Z * Z -> Z -> Z -> RGBA)
           (decode : bytes -> PyExc + Image RGBA)
           (base_image : Image RGBA) (file : option FileContent)
  : Result (Image RGBA) :=
  let? overlay := of_sum (load_overlay decode file) in
  PIL.alpha_composite base_image (fit_overlay lanczos overlay).

Definition fully_transparent (im : Image RGBA) : Prop :=
  forall x y, in_bounds im x y -> alpha (pix im x y) = 0.

Definition fully_opaque (im : Image RGBA) : Prop :=
  forall x y, in_bounds im x y -> alpha (pix im x y) = 255.

(** A resampling filter with normalised weights maps a constant plane to
    the same constant; this is what is needed of Pillow's Lanczos filter for
    the alpha plane of a fully transparent or fully opaque image. *)
Definition keeps_flat_alpha
           (lanczos : Image RGBA -> Z * Z -> Z -> Z -> RGBA) : Prop :=
  forall (im : Image RGBA) (sz : Z * Z) (a x y : Z),
    nonempty im -> a = 0 \/ a = 255 ->
    (forall u v, in_bounds im u v -> alpha (pix im u v) = a) ->
    alpha (lanczos im sz x y) = a.

(** The world after one more event. *)
Definition logged (w : World) (events : list Event) : World :=
  mkWorld (template_file w) (trace w ++ events).

(** ** Sample inputs *)

(** A stand-in for the resampling filter that keeps flat planes: it takes
    the top-left pixel of the source. *)
Definition sample_lanczos (im : Image RGBA) (sz : Z * Z) (x y : Z) : RGBA :=
  pix im 0 0.

(** A decoder that refuses everything. *)
Definition sample_decode (b : bytes) : PyExc + Image RGBA :=
  inl UnidentifiedImageError.

Definition red_pixel : RGBA := mkRGBA 255 0 0 255.

(** A solid red 64x64 asset and a solid red canvas. *)
Definition sample_asset : Image RGBA := PIL.new (64, 64) red_pixel.
Definition sample_base : Image RGBA := PIL.new (585, 559) red_pixel.

(** A 128x128 logo in three vertical bands: a transparent one of 32
    columns, a translucent one of 32 columns and an opaque one of 64. *)
Definition sample_logo : Image RGBA :=
  mkImage (128, 128)
    (fun x _ => if x <? 32 then mkRGBA 10 20 30 0
                else if x <? 64 then mkRGBA 155 30 84 80
                else mkRGBA 60 160 140 255).

(** One black and one white pixel, side by side. *)
Definition black_white : Image RGBA :=
  mkImage (2, 1)
    (fun x _ => if x =? 0 then mkRGBA 0 0 0 255 else mkRGBA 255 255 255 255).

(** The same two colours with other alpha values. *)
Definition black_white_faded : Image RGBA :=
  mkImage (2, 1)
    (fun x _ => if x =? 0 then mkRGBA 0 0 0 0 else mkRGBA 255 255 255 7).

(** An image without pixels. *)
Definition no_pixels : Image RGBA := PIL.new (0, 10) red_pixel.

Definition transparent_placeholder : Image RGBA :=
  PIL.new (ROBLOX_WIDTH, ROBLOX_HEIGHT) (mkRGBA 0 0 0 0).

(** No network: every request raises; the API key is there, the generator
    fails; writes succeed. *)
Definition offline_env : Env :=
  mkEnv (fun _ => inl RequestException) WriteOk WriteOk
        (inr (Some "sk-test"%string)) (fun _ => inl APIError).

(** No network and a disk that refuses the placeholder. *)
Definition read_only_env : Env :=
  mkEnv (fun _ => inl RequestException) WriteOk (WriteFails OSError None)
        (inr (Some "sk-test"%string)) (fun _ => inl APIError).

(** The network answers every request with an empty body and status 200;
    there is no API key. *)
Definition keyless_env : Env :=
  mkEnv (fun _ => inr (mkResponse true [])) WriteOk WriteOk
        (inr None) (fun _ => inr ["https://images.example/1.png"%string]).

(** The generator returns one URL, whose body [sample_decode] refuses;
    [decode_red] decodes it to the red asset. *)
Definition online_env : Env :=
  mkEnv (fun _ => inr (mkResponse true [])) WriteOk WriteOk
        (inr (Some "sk-test"%string)) (fun _ => inr ["https://images.example/1.png"%string]).

Definition decode_red (b : bytes) : PyExc + Image RGBA := inr sample_asset.

(** The cache file holds the placeholder; nothing has happened yet. *)
Definition cached_world : World :=
  mkWorld (Some (SavedPNG transparent_placeholder)) [].

(** No cache file yet. *)
Definition fresh_world : World := mkWorld None [].
(** * Properties *)

(** ** Ranges and sums *)

Lemma in_range (n j : Z) : In j (range n) <-> 0 <= j < n.
Proof.
  unfold range. rewrite in_map_iff. split.
  - intros [k [<- Hk]]. apply in_seq in Hk. lia.
  - intros Hj. exists (Z.to_nat j). split; [lia | apply in_seq; lia].
Qed.

Lemma NoDup_range (n : Z) : NoDup (range n).
Proof.
  unfold range. apply Injective_map_NoDup.
  - intros a b Hab. lia.
  - apply seq_NoDup.
Qed.

Lemma length_range (n : Z) : 0 <= n -> Z.of_nat (length (range n)) = n.
Proof. intros Hn. unfold range. rewrite length_map, length_seq. lia. Qed.

Lemma sumZ_app (l1 l2 : list Z) :
  PIL.sumZ (l1 ++ l2) = PIL.sumZ l1 + PIL.sumZ l2.
Proof. induction l1 as [|a l1 IH]; simpl; [reflexivity | rewrite IH; lia]. Qed.

Lemma sumZ_map_add {A} (f g : A -> Z) (l : list A) :
  PIL.sumZ (map (fun j => f j + g j) l) =
  PIL.sumZ (map f l) + PIL.sumZ (map g l).
Proof. induction l as [|a l IH]; simpl; [reflexivity | rewrite IH; lia]. Qed.

Lemma sumZ_map_ext {A} (f g : A -> Z) (l : list A) :
  (forall j, In j l -> f j = g j) ->
  PIL.sumZ (map f l) = PIL.sumZ (map g l).
Proof.
  induction l as [|a l IH]; simpl; intros H; [reflexivity|].
  rewrite (H a) by auto. rewrite IH by auto. reflexivity.
Qed.

Lemma sumZ_map_const {A} (c : Z) (l : list A) :
  PIL.sumZ (map (fun _ => c) l) = c * Z.of_nat (length l).
Proof. induction l as [|a l IH]; simpl length; simpl PIL.sumZ; [lia | rewrite IH; lia]. Qed.

(** A sum that picks the one index [a] out of a duplicate-free list. *)
Lemma sumZ_pick (c : Z -> Z) (a : Z) (l : list Z) :
  NoDup l ->
  PIL.sumZ (map (fun j => if Z.eq_dec a j then c j else 0) l) =
  if in_dec Z.eq_dec a l then c a else 0.
Proof.
  induction 1 as [|x l Hx Hnd IH]; simpl; [reflexivity|].
  rewrite IH. destruct (Z.eq_dec x a) as [->|Hne].
  - destruct (Z.eq_dec a a); [|congruence].
    destruct (in_dec Z.eq_dec a l); [contradiction | lia].
  - destruct (Z.eq_dec a x); [congruence|].
    destruct (in_dec Z.eq_dec a l); lia.
Qed.

(** ** ImageStat: the histogram route computes count and sum of the band *)

Lemma count_level_cons (a : Z) (vals : list Z) (j : Z) :
  PIL.count_level (a :: vals) j =
  (if Z.eq_dec a j then 1 else 0) + PIL.count_level vals j.
Proof.
  unfold PIL.count_level. simpl. destruct (Z.eq_dec a j); lia.
Qed.

Lemma stat_count_histogram (vals : list Z) :
  Forall byte_range vals ->
  PIL.stat_count (PIL.histogram_band vals) = Z.of_nat (length vals).
Proof.
  unfold PIL.stat_count, PIL.histogram_band.
  induction 1 as [|a vals Ha Hall IH].
  - rewrite (sumZ_map_ext _ (fun _ => 0)) by reflexivity.
    rewrite sumZ_map_const. simpl. lia.
  - rewrite (sumZ_map_ext _ _ _ (fun j _ => count_level_cons a vals j)).
    rewrite sumZ_map_add, IH.
    rewrite (sumZ_pick (fun _ => 1) a _ (NoDup_range 256)).
    destruct (in_dec Z.eq_dec a (range 256)) as [|Hout].
    + simpl length. lia.
    + exfalso. apply Hout, in_range. unfold byte_range in Ha. lia.
Qed.

Lemma stat_sum_unfold (vals : list Z) :
  PIL.stat_sum (PIL.histogram_band vals) =
  PIL.sumZ (map (fun j => j * PIL.count_level vals j) (range 256)).
Proof.
  unfold PIL.stat_sum, PIL.histogram_band.
  generalize (range 256) as l.
  induction l as [|x l IH]; simpl; [reflexivity | rewrite IH; reflexivity].
Qed.

Lemma stat_sum_histogram (vals : list Z) :
  Forall byte_range vals ->
  PIL.stat_sum (PIL.histogram_band vals) = PIL.sumZ vals.
Proof.
  rewrite stat_sum_unfold.
  induction 1 as [|a vals Ha Hall IH].
  - rewrite (sumZ_map_ext _ (fun _ => 0)); [rewrite sumZ_map_const; simpl; lia|].
    intros j _. unfold PIL.count_level. simpl. lia.
  - rewrite (sumZ_map_ext _
               (fun j => (if Z.eq_dec a j then j else 0) +
                         j * PIL.count_level vals j)).
    + rewrite sumZ_map_add, IH.
      rewrite (sumZ_pick (fun j => j) a _ (NoDup_range 256)).
      destruct (in_dec Z.eq_dec a (range 256)) as [|Hout].
      * simpl. lia.
      * exfalso. apply Hout, in_range. unfold byte_range in Ha. lia.
    + intros j _. rewrite count_level_cons. destruct (Z.eq_dec a j); lia.
Qed.

Lemma sumZ_bounds (vals : list Z) :
  Forall byte_range vals ->
  0 <= PIL.sumZ vals <= 255 * Z.of_nat (length vals).
Proof.
  induction 1 as [|a vals Ha Hall IH]; simpl PIL.sumZ; simpl length.
  - lia.
  - unfold byte_range in Ha. lia.
Qed.

(** [int(stat.mean)] of a non-empty band of 8-bit values: the floor of the
    arithmetic mean, itself an 8-bit value. *)
Lemma int_mean_spec (vals : list Z) :
  Forall byte_range vals -> vals <> [] ->
  PIL.int_mean vals = Ok (PIL.sumZ vals / Z.of_nat (length vals)) /\
  byte_range (PIL.sumZ vals / Z.of_nat (length vals)).
Proof.
  intros Hall Hne. unfold PIL.int_mean.
  rewrite stat_count_histogram, stat_sum_histogram by assumption.
  assert (Hlen : 0 < Z.of_nat (length vals))
    by (destruct vals; [congruence | simpl length; lia]).
  pose proof (sumZ_bounds vals Hall) as Hb.
  destruct (Z.eqb_spec (Z.of_nat (length vals)) 0) as [E|_]; [lia|].
  rewrite Z.quot_div_nonneg by lia. split; [reflexivity|].
  unfold byte_range. split.
  - apply Z.div_pos; lia.
  - apply Z.div_le_upper_bound; lia.
Qed.

(** ** Pixel data of an image *)

Lemma in_getdata {P} (im : Image P) (p : P) :
  In p (getdata im) <-> exists x y, in_bounds im x y /\ p = pix im x y.
Proof.
  unfold getdata, in_bounds. rewrite in_flat_map. split.
  - intros [y [Hy Hp]]. apply in_map_iff in Hp. destruct Hp as [x [<- Hx]].
    exists x, y. rewrite in_range in Hx, Hy. auto.
  - intros [x [y [[Hx Hy] ->]]]. exists y. split; [now apply in_range|].
    apply in_map_iff. exists x. split; [reflexivity | now apply in_range].
Qed.

Lemma length_flat_map_const {A B} (f : A -> list B) (k : nat) (l : list A) :
  (forall a, length (f a) = k) ->
  length (flat_map f l) = (length l * k)%nat.
Proof.
  intros Hf. induction l as [|a l IH]; simpl; [reflexivity|].
  rewrite length_app, Hf, IH. reflexivity.
Qed.

Lemma length_getdata {P} (im : Image P) :
  0 <= width im -> 0 <= height im ->
  Z.of_nat (length (getdata im)) = width im * height im.
Proof.
  intros Hw Hh. unfold getdata.
  rewrite (length_flat_map_const _ (Z.to_nat (width im))).
  - unfold range. rewrite length_map, length_seq. lia.
  - intros y. unfold range. now rewrite !length_map, length_seq.
Qed.

Lemma getdata_nonempty {P} (im : Image P) : nonempty im -> getdata im <> [].
Proof.
  intros [Hw Hh] E.
  pose proof (length_getdata im ltac:(lia) ltac:(lia)) as L.
  rewrite E in L. simpl in L. nia.
Qed.

Lemma getdata_convert_RGB (im : Image RGBA) :
  getdata (PIL.convert_RGB im) =
  map (fun p => (red p, green p, blue p)) (getdata im).
Proof.
  unfold getdata. simpl. unfold width, height. simpl.
  induction (range (snd (size im))) as [|y l IH]; simpl; [reflexivity|].
  rewrite map_app, IH, map_map. reflexivity.
Qed.

Lemma valid_getdata (im : Image RGBA) :
  valid_image im -> Forall valid_pixel (getdata im).
Proof.
  intros Hv. apply Forall_forall. intros p Hp.
  apply in_getdata in Hp. destruct Hp as [x [y [Hb ->]]]. auto.
Qed.

Lemma get_average_color_bands (image : Image RGBA) :
  get_average_color image =
  (let? r := PIL.int_mean (band red image) in
   let? g := PIL.int_mean (band green image) in
   let? b := PIL.int_mean (band blue image) in
   Ok (r, g, b)).
Proof.
  unfold get_average_color, band.
  rewrite getdata_convert_RGB, !map_map. reflexivity.
Qed.

Lemma band_byte_range (ch : RGBA -> Z) (im : Image RGBA) :
  (forall p, valid_pixel p -> byte_range (ch p)) ->
  valid_image im -> Forall byte_range (band ch im).
Proof.
  intros Hch Hv. unfold band. apply Forall_map.
  eapply Forall_impl; [| apply valid_getdata, Hv]. exact Hch.
Qed.

Lemma band_nonempty (ch : RGBA -> Z) (im : Image RGBA) :
  nonempty im -> band ch im <> [].
Proof.
  intros Hne E. apply (getdata_nonempty im Hne).
  unfold band in E. now apply map_eq_nil in E.
Qed.

(** On a non-empty 8-bit image the average colour is, band by band, the
    floor of the mean, and the call does not raise. *)
Lemma get_average_color_spec (im : Image RGBA) :
  nonempty im -> valid_image im ->
  get_average_color im =
    Ok (mean_floor (band red im), mean_floor (band green im),
        mean_floor (band blue im)) /\
  byte_range (mean_floor (band red im)) /\
  byte_range (mean_floor (band green im)) /\
  byte_range (mean_floor (band blue im)).
Proof.
  intros Hne Hv. rewrite get_average_color_bands.
  assert (Hr := int_mean_spec (band red im)
            (band_byte_range red im (fun p H => proj1 H) Hv)
            (band_nonempty red im Hne)).
  assert (Hg := int_mean_spec (band green im)
            (band_byte_range green im (fun p H => proj1 (proj2 H)) Hv)
            (band_nonempty green im Hne)).
  assert (Hb := int_mean_spec (band blue im)
            (band_byte_range blue im (fun p H => proj1 (proj2 (proj2 H))) Hv)
            (band_nonempty blue im Hne)).
  destruct Hr as [-> Hr], Hg as [-> Hg], Hb as [-> Hb].
  simpl. unfold mean_floor. auto.
Qed.

(** ** Average colour of special images *)

Lemma sumZ_all_equal (c : Z) (vals : list Z) :
  Forall (fun v => v = c) vals -> PIL.sumZ vals = c * Z.of_nat (length vals).
Proof.
  induction 1 as [|a vals -> _ IH]; simpl PIL.sumZ; simpl length; [lia|].
  rewrite IH. lia.
Qed.

Lemma mean_floor_all_equal (c : Z) (vals : list Z) :
  vals <> [] -> Forall (fun v => v = c) vals -> mean_floor vals = c.
Proof.
  intros Hne Hall. unfold mean_floor. rewrite (sumZ_all_equal c) by assumption.
  apply Z.div_mul. destruct vals; [congruence | simpl length; lia].
Qed.

Lemma band_uniform (ch : RGBA -> Z) (im : Image RGBA) (c : Z) :
  (forall x y, in_bounds im x y -> ch (pix im x y) = c) ->
  Forall (fun v => v = c) (band ch im).
Proof.
  intros H. unfold band. apply Forall_map, Forall_forall.
  intros p Hp. apply in_getdata in Hp. destruct Hp as [x [y [Hb ->]]]. auto.
Qed.

Lemma is_black_true (p : RGBA) :
  is_black p = true -> red p = 0 /\ green p = 0 /\ blue p = 0.
Proof. unfold is_black. rewrite !andb_true_iff, !Z.eqb_eq. tauto. Qed.

Lemma is_white_true (p : RGBA) :
  is_white p = true -> red p = 255 /\ green p = 255 /\ blue p = 255.
Proof. unfold is_white. rewrite !andb_true_iff, !Z.eqb_eq. tauto. Qed.

(** In a black-and-white pixel list every colour band sums to 255 times
    the number of white pixels. *)
Lemma black_white_sums (data : list RGBA) :
  Forall (fun p => is_black p || is_white p = true) data ->
  let whites := Z.of_nat (length (filter is_white data)) in
  let blacks := Z.of_nat (length (filter is_black data)) in
  Z.of_nat (length data) = blacks + whites /\
  PIL.sumZ (map red data) = 255 * whites /\
  PIL.sumZ (map green data) = 255 * whites /\
  PIL.sumZ (map blue data) = 255 * whites.
Proof.
  cbv zeta. induction 1 as [|p data Hp _ IH]; [simpl; lia|].
  destruct IH as (IHn & IHr & IHg & IHb).
  cbn [filter map PIL.sumZ fold_right].
  fold (PIL.sumZ (map red data)) (PIL.sumZ (map green data))
       (PIL.sumZ (map blue data)).
  rewrite IHr, IHg, IHb. clear IHr IHg IHb.
  destruct (is_black p) eqn:Eb, (is_white p) eqn:Ew;
    try discriminate Hp;
    try (apply is_black_true in Eb; destruct Eb as (Br & Bg & Bb));
    try (apply is_white_true in Ew; destruct Ew as (Wr & Wg & Wb));
    cbn [length]; lia.
Qed.

Lemma half_of_255 (k : Z) : 0 < k -> 255 * k / (k + k) = 127.
Proof. intros Hk. symmetry. apply Z.div_unique with (r := k); lia. Qed.

(** C5. [get_average_color] of a non-empty 8-bit image returns, for each of
    red, green and blue on its own, the arithmetic mean of that band over
    all [width * height] pixels, truncated to an integer, which lies in
    [0, 255]; alpha plays no part.  On an image of one colour it returns
    that colour, and on an image with as many black as white pixels (and no
    others) it returns (127, 127, 127). *)
Theorem get_average_color_truncated_mean :
  (forall im : Image RGBA,
      nonempty im -> valid_image im ->
      get_average_color im =
        Ok (mean_floor (band red im), mean_floor (band green im),
            mean_floor (band blue im)) /\
      Z.of_nat (length (getdata im)) = width im * height im /\
      byte_range (mean_floor (band red im)) /\
      byte_range (mean_floor (band green im)) /\
      byte_range (mean_floor (band blue im))) /\
  (forall (im : Image RGBA) (c : RGB),
      nonempty im -> valid_image im -> uniform_rgb im c ->
      get_average_color im = Ok c) /\
  (forall im : Image RGBA,
      nonempty im -> valid_image im -> half_black_half_white im ->
      get_average_color im = Ok (127, 127, 127)).
Proof.
  split; [|split].
  - intros im Hne Hv.
    destruct (get_average_color_spec im Hne Hv) as (E & Hr & Hg & Hb).
    destruct Hne as [Hw Hh].
    repeat split; try assumption; try apply Hr; try apply Hg; try apply Hb.
    apply length_getdata; lia.
  - intros im [[r g] b] Hne Hv Hu.
    destruct (get_average_color_spec im Hne Hv) as (-> & _).
    rewrite (mean_floor_all_equal r), (mean_floor_all_equal g),
      (mean_floor_all_equal b); try reflexivity;
      try (apply band_nonempty; assumption);
      apply band_uniform; intros x y Hxy; specialize (Hu x y Hxy);
      unfold rgb_of in Hu; congruence.
  - intros im Hne Hv [Hbw Hhalf].
    destruct (get_average_color_spec im Hne Hv) as (-> & _).
    destruct (black_white_sums _ Hbw) as (Hn & Hr & Hg & Hb).
    cbv zeta in Hn. rewrite Hhalf in Hn.
    assert (Hk : 0 < Z.of_nat (length (filter is_white (getdata im)))).
    { assert (0 < Z.of_nat (length (getdata im))); [|lia].
      pose proof (getdata_nonempty im Hne) as Hd.
      destruct (getdata im); [congruence | cbn [length]; lia]. }
    unfold mean_floor, band. rewrite !length_map, Hr, Hg, Hb, Hn.
    rewrite half_of_255 by assumption. reflexivity.
Qed.

(** ** Facts about the Pillow primitives *)

Lemma size_eqb_eq (a b : Z * Z) : size_eqb a b = true <-> a = b.
Proof.
  destruct a as [a1 a2], b as [b1 b2]. unfold size_eqb. simpl.
  rewrite andb_true_iff, !Z.eqb_eq. split.
  - intros [-> ->]. reflexivity.
  - intros E. inversion E. auto.
Qed.

Lemma size_eqb_refl (a : Z * Z) : size_eqb a a = true.
Proof. now apply size_eqb_eq. Qed.

(** A property checked on each of the 256 byte values holds of every byte. *)
Lemma byte_forall (P : Z -> bool) :
  forallb P (range 256) = true -> forall a, byte_range a -> P a = true.
Proof.
  intros H a Ha. rewrite forallb_forall in H. apply H, in_range.
  unfold byte_range in Ha. lia.
Qed.

Lemma u8_byte (a : Z) : byte_range a -> PIL.u8 a = a.
Proof. intros Ha. unfold PIL.u8. apply Z.mod_small. unfold byte_range in Ha. lia. Qed.

(** [DIV255] is the division by 255 rounded to the nearest integer, on
    every sum of two weighted bytes. *)
Lemma DIV255_rounds (a : Z) :
  0 <= a <= 65025 -> PIL.DIV255 a = (a + 127) / 255.
Proof.
  intros Ha. unfold PIL.DIV255, PIL.u32. cbv zeta.
  rewrite Z.mod_small by lia.
  rewrite !Z.shiftr_div_pow2 by lia. change (2 ^ 8) with 256.
  Z.div_mod_to_equations. lia.
Qed.

Lemma weighted_sum_range (mask in1 in2 : Z) :
  byte_range mask -> byte_range in1 -> byte_range in2 ->
  0 <= in1 * (255 - mask) + in2 * mask <= 65025.
Proof. unfold byte_range. intros Hm H1 H2. nia. Qed.

(** The blend of two bytes is their mean with weights [255 - mask] and
    [mask], rounded to the nearest integer: again a byte. *)
Lemma BLEND_weighted_mean (mask in1 in2 : Z) :
  byte_range mask -> byte_range in1 -> byte_range in2 ->
  PIL.u8 (PIL.BLEND mask in1 in2) = weighted_mean mask in1 in2 /\
  byte_range (weighted_mean mask in1 in2).
Proof.
  intros Hm H1 H2.
  pose proof (weighted_sum_range mask in1 in2 Hm H1 H2) as Hs.
  assert (Hb : byte_range (weighted_mean mask in1 in2)).
  { unfold weighted_mean, byte_range. split.
    - apply Z.div_pos; lia.
    - apply Z.lt_succ_r. apply Z.div_lt_upper_bound; lia. }
  split; [|exact Hb]. unfold PIL.BLEND. rewrite DIV255_rounds by exact Hs.
  now apply u8_byte.
Qed.

(** Under a mask of 0 the destination band is kept, under a mask of 255 it
    is replaced by the source band. *)
Lemma weighted_mean_transparent (out inp : Z) : weighted_mean 0 out inp = out.
Proof.
  unfold weighted_mean. replace (out * (255 - 0) + inp * 0 + 127)
    with (out * 255 + 127) by lia.
  rewrite Z.div_add_l by lia. change (127 / 255) with 0. apply Z.add_0_r.
Qed.

Lemma weighted_mean_opaque (out inp : Z) : weighted_mean 255 out inp = inp.
Proof.
  unfold weighted_mean. replace (out * (255 - 255) + inp * 255 + 127)
    with (inp * 255 + 127) by lia.
  rewrite Z.div_add_l by lia. change (127 / 255) with 0. apply Z.add_0_r.
Qed.

Lemma BLEND_transparent (out inp : Z) :
  byte_range out -> PIL.u8 (PIL.BLEND 0 out inp) = out.
Proof.
  intros Ho. unfold PIL.BLEND.
  replace (out * (255 - 0) + inp * 0) with (out * 255) by lia.
  rewrite DIV255_rounds by (unfold byte_range in Ho; lia).
  rewrite Z.div_add_l by lia. change (127 / 255) with 0.
  rewrite Z.add_0_r. now apply u8_byte.
Qed.

Lemma BLEND_opaque (out inp : Z) :
  byte_range inp -> PIL.u8 (PIL.BLEND 255 out inp) = inp.
Proof.
  intros Hi. unfold PIL.BLEND.
  replace (out * (255 - 255) + inp * 255) with (inp * 255) by lia.
  rewrite DIV255_rounds by (unfold byte_range in Hi; lia).
  rewrite Z.div_add_l by lia. change (127 / 255) with 0.
  rewrite Z.add_0_r. now apply u8_byte.
Qed.

Lemma blend_pixel_transparent (mask out inp : RGBA) :
  alpha mask = 0 -> valid_pixel out -> PIL.blend_pixel mask out inp = out.
Proof.
  intros Hm (Hr & Hg & Hb & Ha). unfold PIL.blend_pixel. rewrite Hm.
  rewrite !BLEND_transparent by assumption. now destruct out.
Qed.

Lemma blend_pixel_opaque (mask out inp : RGBA) :
  alpha mask = 255 -> valid_pixel inp -> PIL.blend_pixel mask out inp = inp.
Proof.
  intros Hm (Hr & Hg & Hb & Ha). unfold PIL.blend_pixel. rewrite Hm.
  rewrite !BLEND_opaque by assumption. now destruct inp.
Qed.

(** A masked paste of 8-bit pixels, band by band. *)
Lemma blend_pixel_weighted_mean (mask out inp : RGBA) :
  valid_pixel mask -> valid_pixel out -> valid_pixel inp ->
  PIL.blend_pixel mask out inp =
    mkRGBA (weighted_mean (alpha mask) (red out) (red inp))
           (weighted_mean (alpha mask) (green out) (green inp))
           (weighted_mean (alpha mask) (blue out) (blue inp))
           (weighted_mean (alpha mask) (alpha out) (alpha inp)).
Proof.
  intros (_ & _ & _ & Hm) (Hor & Hog & Hob & Hoa) (Hir & Hig & Hib & Hia).
  unfold PIL.blend_pixel. cbv zeta.
  rewrite (proj1 (BLEND_weighted_mean _ _ _ Hm Hor Hir)),
    (proj1 (BLEND_weighted_mean _ _ _ Hm Hog Hig)),
    (proj1 (BLEND_weighted_mean _ _ _ Hm Hob Hib)),
    (proj1 (BLEND_weighted_mean _ _ _ Hm Hoa Hia)).
  reflexivity.
Qed.

Lemma clip8_byte (v : Z) : byte_range (PIL.clip8 v).
Proof.
  unfold PIL.clip8, byte_range.
  destruct (Z.ltb_spec v 0); [lia|].
  destruct (Z.gtb_spec v 255); lia.
Qed.

Section ResizeFacts.
Variable lanczos : Image RGBA -> Z * Z -> Z -> Z -> RGBA.

Lemma resize_size (im : Image RGBA) (sz : Z * Z) :
  size (PIL.resize lanczos im sz) = sz.
Proof.
  unfold PIL.resize. destruct (size_eqb (size im) sz) eqn:E.
  - now apply size_eqb_eq in E.
  - reflexivity.
Qed.

Lemma resize_valid (im : Image RGBA) (sz : Z * Z) :
  valid_image im -> valid_image (PIL.resize lanczos im sz).
Proof.
  intros Hv. unfold PIL.resize. destruct (size_eqb (size im) sz) eqn:E.
  - exact Hv.
  - intros x y _. simpl. repeat split; apply clip8_byte.
Qed.

(** An image that already has the requested size is only copied. *)
Lemma resize_same_size (im : Image RGBA) :
  same_pixels (PIL.resize lanczos im (size im)) im.
Proof.
  unfold PIL.resize. rewrite size_eqb_refl. split; reflexivity.
Qed.
End ResizeFacts.

(** *** Pasting without a mask *)

Lemma paste_no_mask (base tile : Image RGBA) (at_ : Z * Z) :
  PIL.paste base tile at_ None = Ok (pasted tile base at_).
Proof. destruct at_ as [ax ay]. reflexivity. Qed.

Lemma for_each_total {A S} (f : S -> A -> S) (body : S -> A -> Result S)
      (xs : list A) (s : S) :
  (forall s x, body s x = Ok (f s x)) ->
  for_each xs body s = Ok (fold_left f xs s).
Proof.
  intros Hb. revert s. induction xs as [|x xs IH]; intros s; simpl.
  - reflexivity.
  - rewrite Hb. simpl. apply IH.
Qed.

Lemma fold_left_map {A B S} (f : S -> B -> S) (g : A -> B) (l : list A) (s : S) :
  fold_left f (map g l) s = fold_left (fun s a => f s (g a)) l s.
Proof.
  revert s. induction l as [|a l IH]; intros s; simpl; [reflexivity | apply IH].
Qed.

(** Two nested loops visit the pairs of [list_prod] in order. *)
Lemma fold_left_nested {A B S} (f : S -> A * B -> S) (xs : list A)
      (ys : list B) (s : S) :
  fold_left (fun s x => fold_left (fun s y => f s (x, y)) ys s) xs s =
  fold_left f (list_prod xs ys) s.
Proof.
  revert s. induction xs as [|x xs IH]; intros s; simpl; [reflexivity|].
  rewrite fold_left_app, IH, fold_left_map. reflexivity.
Qed.

Lemma fold_pasted_size (tile : Image RGBA) (offs : list (Z * Z))
      (base : Image RGBA) :
  size (fold_left (pasted tile) offs base) = size base.
Proof.
  revert base. induction offs as [|o offs IH]; intros base; simpl.
  - reflexivity.
  - rewrite IH. reflexivity.
Qed.

(** After a sequence of pastes a pixel shows the last paste that covers it,
    or the original canvas if none does. *)
Lemma fold_pasted_pix (tile : Image RGBA) (offs : list (Z * Z))
      (base : Image RGBA) (x y : Z) :
  pix (fold_left (pasted tile) offs base) x y =
  match find (fun o => PIL.in_box (PIL.clip_box (size base) (size tile) o) x y)
             (rev offs) with
  | Some o => pix tile (x - fst o) (y - snd o)
  | None => pix base x y
  end.
Proof.
  induction offs as [|o offs IH] using rev_ind; [reflexivity|].
  rewrite fold_left_app, rev_app_distr. simpl.
  rewrite fold_pasted_size.
  destruct (PIL.in_box _ x y); [reflexivity | apply IH].
Qed.

(** ** The two layouts *)

Section Layouts.
Variable lanczos : Image RGBA -> Z * Z -> Z -> Z -> RGBA.

Let logo_of (ai_image : Image RGBA) : Image RGBA :=
  PIL.resize lanczos ai_image (LOGO_SIZE, LOGO_SIZE).
Let tile_of (ai_image : Image RGBA) : Image RGBA :=
  PIL.resize lanczos ai_image (PATTERN_SIZE, PATTERN_SIZE).

Lemma logo_nonempty (ai_image : Image RGBA) : nonempty (logo_of ai_image).
Proof.
  unfold nonempty, width, height, logo_of. rewrite resize_size.
  simpl. unfold LOGO_SIZE. lia.
Qed.

(** Logo mode does not raise on an 8-bit asset; its canvas is the
    average colour of the logo with the logo blended in at the logo box. *)
Lemma create_logo_mode_image_eq (ai_image : Image RGBA) :
  valid_image ai_image ->
  exists r g b,
    get_average_color (logo_of ai_image) = Ok (r, g, b) /\
    valid_pixel (mkRGBA r g b 255) /\
    create_logo_mode_image lanczos ai_image =
      PIL.paste (PIL.new (ROBLOX_WIDTH, ROBLOX_HEIGHT) (mkRGBA r g b 255))
                (logo_of ai_image) (LOGO_X, LOGO_Y)
                (Some (logo_of ai_image)) /\
    create_logo_mode_image lanczos ai_image =
      Ok (logo_canvas (logo_of ai_image) (mkRGBA r g b 255)).
Proof.
  intros Hv.
  assert (Hlv : valid_image (logo_of ai_image)) by now apply resize_valid.
  destruct (get_average_color_spec _ (logo_nonempty ai_image) Hlv)
    as (E & Hr & Hg & Hb).
  eexists _, _, _. split; [exact E|]. split.
  { repeat split; try apply Hr; try apply Hg; try apply Hb; simpl; lia. }
  unfold create_logo_mode_image. fold (logo_of ai_image). rewrite E.
  cbn [rbind]. unfold PIL.paste.
  rewrite size_eqb_refl. cbn [rbind]. split.
  - reflexivity.
  - unfold logo_canvas, logo_box, logo_of. rewrite resize_size. reflexivity.
Qed.

(** Pattern mode never raises; its canvas is the transparent canvas after
    the pastes at [tile_offsets], in that order. *)
Lemma create_pattern_mode_image_eq (ai_image : Image RGBA) :
  create_pattern_mode_image lanczos ai_image =
    Ok (fold_left (pasted (tile_of ai_image)) tile_offsets
          (PIL.new (ROBLOX_WIDTH, ROBLOX_HEIGHT) PIL.transparent_black)).
Proof.
  unfold create_pattern_mode_image. fold (tile_of ai_image).
  rewrite (for_each_total
             (fun base x =>
                fold_left (fun base y => pasted (tile_of ai_image) base (x, y))
                          (range3 0 ROBLOX_HEIGHT PATTERN_SIZE) base)).
  - cbn [rbind]. unfold tile_offsets.
    rewrite <- (fold_left_nested (pasted (tile_of ai_image))). reflexivity.
  - intros base x. apply for_each_total. intros base' y.
    apply paste_no_mask.
Qed.

(** C2. For every generated asset with 8-bit channels, whatever its
    dimensions, logo mode and pattern mode both return normally and the
    canvas they return is exactly 585 by 559. *)
Theorem layout_canvas_is_585_by_559 (ai_image : Image RGBA) :
  valid_image ai_image ->
  (exists canvas,
      create_logo_mode_image lanczos ai_image = Ok canvas /\
      size canvas = (585, 559)) /\
  (exists canvas,
      create_pattern_mode_image lanczos ai_image = Ok canvas /\
      size canvas = (585, 559)).
Proof.
  intros Hv. split.
  - destruct (create_logo_mode_image_eq ai_image Hv)
      as (r & g & b & _ & _ & _ & E).
    eexists. split; [exact E | reflexivity].
  - eexists. split; [apply create_pattern_mode_image_eq|].
    rewrite fold_pasted_size. reflexivity.
Qed.

(** C3. For every generated asset with 8-bit channels, the logo canvas is
    the 585x559 canvas filled with the average colour of the resized
    128x128 logo at alpha 255, onto which the resized logo is pasted at
    (231, 74) with the logo itself as mask.  The average colour is, band by
    band, the floor of the mean of that band over the 16384 pixels of the
    logo; it is the logo's colour when the logo has only one.  Outside the
    128x128 logo box every pixel is the background; inside, every band is
    the mean of background and logo pixel weighted by the logo pixel's
    alpha and rounded to the nearest integer: the background where that
    alpha is 0, the logo pixel where it is 255. *)
Theorem create_logo_mode_image_composition (ai_image : Image RGBA) :
  valid_image ai_image ->
  let logo := PIL.resize lanczos ai_image (LOGO_SIZE, LOGO_SIZE) in
  let background :=
    mkRGBA (mean_floor (band red logo)) (mean_floor (band green logo))
           (mean_floor (band blue logo)) 255 in
  exists canvas : Image RGBA,
    size logo = (128, 128) /\
    Z.of_nat (length (getdata logo)) = 16384 /\
    valid_pixel background /\
    get_average_color logo =
      Ok (red background, green background, blue background) /\
    create_logo_mode_image lanczos ai_image = Ok canvas /\
    PIL.paste (PIL.new (585, 559) background) logo (231, 74) (Some logo) =
      Ok canvas /\
    size canvas = (585, 559) /\
    (forall x y, in_bounds canvas x y ->
       if PIL.in_box (231, 74, 128, 128) x y then
         let p := pix logo (x - 231) (y - 74) in
         pix canvas x y =
           mkRGBA (weighted_mean (alpha p) (red background) (red p))
                  (weighted_mean (alpha p) (green background) (green p))
                  (weighted_mean (alpha p) (blue background) (blue p))
                  (weighted_mean (alpha p) 255 (alpha p)) /\
         (alpha p = 0 -> pix canvas x y = background) /\
         (alpha p = 255 -> pix canvas x y = p)
       else pix canvas x y = background) /\
    (forall c : RGB,
        uniform_rgb logo c ->
        background = mkRGBA (fst (fst c)) (snd (fst c)) (snd c) 255).
Proof.
  intros Hv logo background.
  fold (logo_of ai_image) in logo.
  assert (Hne : nonempty logo) by apply logo_nonempty.
  assert (Hlv : valid_image logo) by now apply resize_valid.
  assert (Hsize : size logo = (128, 128)) by apply resize_size.
  destruct (get_average_color_spec logo Hne Hlv) as (Eavg & Hr & Hg & Hb).
  destruct (create_logo_mode_image_eq ai_image Hv)
    as (r & g & b & Eavg' & Hbg & Epaste & E).
  fold logo in Eavg', Epaste, E. rewrite Eavg in Eavg'.
  injection Eavg' as <- <- <-. fold background in Hbg, Epaste, E.
  exists (logo_canvas logo background).
  split; [exact Hsize|]. split.
  { rewrite length_getdata; unfold width, height; rewrite Hsize;
      cbn [fst snd]; lia. }
  split; [exact Hbg|]. split; [exact Eavg|]. split; [exact E|].
  split; [transitivity (create_logo_mode_image lanczos ai_image);
          [symmetry; exact Epaste | exact E]|].
  split; [reflexivity|]. split.
  - intros x y Hxy. unfold logo_canvas. cbn [pix].
    change (PIL.in_box logo_box x y) with (PIL.in_box (231, 74, 128, 128) x y).
    destruct (PIL.in_box (231, 74, 128, 128) x y) eqn:Hin; [|reflexivity].
    change LOGO_X with 231. change LOGO_Y with 74. cbv zeta.
    assert (Hp : valid_pixel (pix logo (x - 231) (y - 74))).
    { apply Hlv. unfold in_bounds, width, height. rewrite Hsize.
      unfold PIL.in_box in Hin. cbn [fst snd].
      rewrite !andb_true_iff, !Z.leb_le, !Z.ltb_lt in Hin. lia. }
    split; [now apply blend_pixel_weighted_mean|]. split; intros Ha.
    + now apply blend_pixel_transparent.
    + now apply blend_pixel_opaque.
  - intros [[cr cg] cb] Hu. unfold background. cbn [fst snd].
    rewrite (mean_floor_all_equal cr), (mean_floor_all_equal cg),
      (mean_floor_all_equal cb); try reflexivity;
      try (apply band_nonempty; assumption);
      apply band_uniform; intros x y Hxy; specialize (Hu x y Hxy);
      unfold rgb_of in Hu; congruence.
Qed.

End Layouts.

(** ** The tiling grid *)

Lemma tile_offsets_eq :
  tile_offsets =
  [(0, 0); (0, 150); (0, 300); (0, 450);
   (150, 0); (150, 150); (150, 300); (150, 450);
   (300, 0); (300, 150); (300, 300); (300, 450);
   (450, 0); (450, 150); (450, 300); (450, 450)].
Proof. reflexivity. Qed.

Lemma in_tile_offsets (o : Z * Z) :
  In o tile_offsets <->
  In (fst o) [0; 150; 300; 450] /\ In (snd o) [0; 150; 300; 450].
Proof.
  destruct o as [ox oy]. unfold tile_offsets. rewrite in_prod_iff.
  reflexivity.
Qed.

Ltac split_offset H :=
  simpl in H;
  repeat match type of H with
         | _ \/ _ => destruct H as [H | H]
         | False => contradiction
         end.

(** A tile pasted at a grid position shows, at every pixel it covers, the
    tile pixel at the remainders of the coordinates: no scaling. *)
Lemma covered_pixel_is_remainder (o : Z * Z) (x y : Z) :
  In o tile_offsets ->
  PIL.in_box (PIL.clip_box (585, 559) (150, 150) o) x y = true ->
  x - fst o = x mod 150 /\ y - snd o = y mod 150.
Proof.
  intros Hin Hbox. apply in_tile_offsets in Hin. destruct o as [ox oy].
  cbn [fst snd] in *. destruct Hin as [Hx Hy].
  split_offset Hx; split_offset Hy; subst ox oy;
    cbn in Hbox; rewrite !andb_true_iff, !Z.leb_le, !Z.ltb_lt in Hbox;
    split;
    first [ apply Z.mod_unique with (q := 0); lia
          | apply Z.mod_unique with (q := 1); lia
          | apply Z.mod_unique with (q := 2); lia
          | apply Z.mod_unique with (q := 3); lia ].
Qed.

(** Every canvas position is covered by the paste at some grid position. *)
Lemma some_tile_covers (x y : Z) :
  0 <= x < 585 -> 0 <= y < 559 ->
  exists o, In o tile_offsets /\
            PIL.in_box (PIL.clip_box (585, 559) (150, 150) o) x y = true.
Proof.
  intros Hx Hy.
  assert (Hox : exists ox, In ox [0; 150; 300; 450] /\ ox <= x < ox + 150).
  { destruct (Z_lt_ge_dec x 150); [exists 0; simpl; intuition lia|].
    destruct (Z_lt_ge_dec x 300); [exists 150; simpl; intuition lia|].
    destruct (Z_lt_ge_dec x 450); [exists 300; simpl; intuition lia|].
    exists 450; simpl; intuition lia. }
  assert (Hoy : exists oy, In oy [0; 150; 300; 450] /\ oy <= y < oy + 150).
  { destruct (Z_lt_ge_dec y 150); [exists 0; simpl; intuition lia|].
    destruct (Z_lt_ge_dec y 300); [exists 150; simpl; intuition lia|].
    destruct (Z_lt_ge_dec y 450); [exists 300; simpl; intuition lia|].
    exists 450; simpl; intuition lia. }
  destruct Hox as (ox & Iox & Bx), Hoy as (oy & Ioy & By).
  exists (ox, oy). split; [apply in_tile_offsets; auto|].
  split_offset Iox; split_offset Ioy; subst ox oy; cbn;
    rewrite !andb_true_iff, !Z.leb_le, !Z.ltb_lt; lia.
Qed.

Section Pattern.
Variable lanczos : Image RGBA -> Z * Z -> Z -> Z -> RGBA.

(** C4. Pattern mode pastes the resized 150x150 tile, without mask, at the
    sixteen grid positions (0|150|300|450, 0|150|300|450) of the 585x559
    canvas.  Pastes in the column x = 450 are cut to 135 pixels of width,
    pastes in the row y = 450 to 109 pixels of height, the others are whole.
    Every canvas pixel is covered by one of the pastes and holds, unblended
    and unscaled, the tile pixel at its coordinates modulo 150. *)
Theorem create_pattern_mode_image_tiling (ai_image : Image RGBA) :
  let tile := PIL.resize lanczos ai_image (PATTERN_SIZE, PATTERN_SIZE) in
  exists canvas : Image RGBA,
    create_pattern_mode_image lanczos ai_image = Ok canvas /\
    for_each tile_offsets (fun base o => PIL.paste base tile o None)
      (PIL.new (585, 559) PIL.transparent_black) = Ok canvas /\
    size tile = (150, 150) /\
    size canvas = (585, 559) /\
    tile_offsets =
      [(0, 0); (0, 150); (0, 300); (0, 450);
       (150, 0); (150, 150); (150, 300); (150, 450);
       (300, 0); (300, 150); (300, 300); (300, 450);
       (450, 0); (450, 150); (450, 300); (450, 450)] /\
    (forall ox oy, In ox [0; 150; 300; 450] -> In oy [0; 150; 300; 450] ->
       PIL.clip_box (size canvas) (size tile) (ox, oy) =
         (ox, oy, (if ox =? 450 then 135 else 150),
                  (if oy =? 450 then 109 else 150))) /\
    forall x y, in_bounds canvas x y ->
      pix canvas x y = pix tile (x mod 150) (y mod 150) /\
      exists o, In o tile_offsets /\
                PIL.in_box (PIL.clip_box (size canvas) (size tile) o) x y = true /\
                pix canvas x y = pix tile (x - fst o) (y - snd o).
Proof.
  intros tile.
  set (canvas := fold_left (pasted tile) tile_offsets
                   (PIL.new (585, 559) PIL.transparent_black)).
  assert (Hts : size tile = (150, 150)) by apply resize_size.
  assert (Hcs : size canvas = (585, 559))
    by (unfold canvas; now rewrite fold_pasted_size).
  exists canvas. split; [apply create_pattern_mode_image_eq|].
  split; [apply for_each_total; intros; apply paste_no_mask|].
  split; [exact Hts|]. split; [exact Hcs|]. split; [reflexivity|].
  rewrite Hts, Hcs. split.
  - intros ox oy Hx Hy.
    split_offset Hx; split_offset Hy; subst ox oy; reflexivity.
  - intros x y [Hx Hy]. unfold width, height in Hx, Hy. rewrite Hcs in Hx, Hy.
    cbn [fst snd] in Hx, Hy.
    assert (Hpix : pix canvas x y =
              match find (fun o => PIL.in_box
                                     (PIL.clip_box (585, 559) (150, 150) o) x y)
                         (rev tile_offsets) with
              | Some o => pix tile (x - fst o) (y - snd o)
              | None => PIL.transparent_black
              end).
    { unfold canvas. rewrite fold_pasted_pix, Hts. reflexivity. }
    destruct (find _ (rev tile_offsets)) as [o|] eqn:Hfind.
    + apply find_some in Hfind. destruct Hfind as [Hin Hbox].
      apply in_rev in Hin.
      destruct (covered_pixel_is_remainder o x y Hin Hbox) as [Ex Ey].
      split.
      * rewrite Hpix, Ex, Ey. reflexivity.
      * exists o. auto.
    + exfalso. destruct (some_tile_covers x y Hx Hy) as (o & Hin & Hbox).
      pose proof (find_none _ _ Hfind o (proj1 (in_rev _ _) Hin)) as Hf.
      cbv beta in Hf. congruence.
Qed.

End Pattern.

(** ** The template cache *)

Lemma http_gets_app (a b : list Event) :
  http_gets (a ++ b) = (http_gets a + http_gets b)%nat.
Proof. unfold http_gets. now rewrite filter_app, length_app. Qed.

Lemma http_gets_cons (e : Event) (l : list Event) :
  http_gets (e :: l) = ((if is_http_get e then 1 else 0) + http_gets l)%nat.
Proof. unfold http_gets. cbn [filter]. now destruct (is_http_get e). Qed.

Lemma generator_calls_app (a b : list Event) :
  generator_calls (a ++ b) = (generator_calls a + generator_calls b)%nat.
Proof. unfold generator_calls. now rewrite filter_app, length_app. Qed.

Lemma generator_calls_cons (e : Event) (l : list Event) :
  generator_calls (e :: l) =
  ((if is_generator_call e then 1 else 0) + generator_calls l)%nat.
Proof.
  unfold generator_calls. cbn [filter]. now destruct (is_generator_call e).
Qed.

(** Closes an equation between two results whose worlds differ only in how
    the trace is bracketed. *)
Ltac same_world :=
  repeat (progress cbn [of_sum rbind template_file trace]);
  rewrite <- ?app_assoc; reflexivity.

(** Unfolds the Streamlit and I/O steps, then the monad. *)
Ltac run_app :=
  unfold st_success, st_info, st_warning, st_error, st_stop, requests_get,
    raise_for_status, open_template, open_bytes;
  unfold try_except, emit, lift, ret; unfold bind;
  repeat (progress cbn [template_file trace]).

(** Counts the requests and generator calls of a trace built with [++]. *)
Ltac count_events :=
  rewrite ?http_gets_app, ?generator_calls_app;
  rewrite ?http_gets_cons, ?generator_calls_cons;
  change (http_gets []) with 0%nat; change (generator_calls []) with 0%nat;
  cbn [is_http_get is_generator_call]; lia.

Lemma download_template_cached (env : Env) (w : World) (c : FileContent) :
  template_file w = Some c -> download_template env w = (Ok tt, w).
Proof.
  intros H. unfold download_template, bind, os_path_exists. rewrite H.
  reflexivity.
Qed.

(** A call on a world without cache file, spelled out: one request, then
    either the downloaded bytes are stored, or the placeholder is. *)
Lemma download_template_missing (env : Env) (w : World) :
  template_file w = None ->
  download_template env w =
  match http_get env TEMPLATE_URL with
  | inr r =>
      if status_ok r then
        match write_download env with
        | WriteOk =>
            (Ok tt,
             mkWorld (Some (RawBytes (content r)))
               (trace w ++ [HttpGet TEMPLATE_URL] ++
                [FileWrite TEMPLATE_FILENAME] ++
                [StSuccess "Template downloaded!"]))
        | WriteFails e left_behind =>
            write_file (save_placeholder env)
              (SavedPNG (PIL.new (ROBLOX_WIDTH, ROBLOX_HEIGHT) (mkRGBA 0 0 0 0)))
              (mkWorld left_behind
                 (trace w ++ [HttpGet TEMPLATE_URL] ++
                  [FileWrite TEMPLATE_FILENAME] ++
                  [StError "Failed to download template" (Some e)] ++
                  [StInfo "Creating a transparent placeholder template..."]))
        end
      else
        write_file (save_placeholder env)
          (SavedPNG (PIL.new (ROBLOX_WIDTH, ROBLOX_HEIGHT) (mkRGBA 0 0 0 0)))
          (mkWorld None
             (trace w ++ [HttpGet TEMPLATE_URL] ++
              [StError "Failed to download template" (Some HTTPError)] ++
              [StInfo "Creating a transparent placeholder template..."]))
  | inl e =>
      write_file (save_placeholder env)
        (SavedPNG (PIL.new (ROBLOX_WIDTH, ROBLOX_HEIGHT) (mkRGBA 0 0 0 0)))
        (mkWorld None
           (trace w ++ [HttpGet TEMPLATE_URL] ++
            [StError "Failed to download template" (Some e)] ++
            [StInfo "Creating a transparent placeholder template..."]))
  end.
Proof.
  intros H.
  unfold download_template, bind, os_path_exists, try_except, requests_get,
    raise_for_status, st_success, st_error, st_info, emit, lift, ret, bind.
  rewrite H. cbn [negb template_file trace].
  destruct (http_get env TEMPLATE_URL) as [e|r];
    repeat (progress cbn [of_sum template_file trace]).
  - rewrite ?H, <- !app_assoc. reflexivity.
  - destruct (status_ok r); repeat (progress cbn [template_file trace]).
    + unfold write_file at 1. cbn [template_file trace].
      destruct (write_download env) as [|e left_behind];
        repeat (progress cbn [template_file trace]);
        rewrite <- !app_assoc; reflexivity.
    + rewrite ?H, <- !app_assoc. reflexivity.
Qed.

Lemma write_file_trace (o : WriteOutcome) (d : FileContent) (w : World) :
  trace (snd (write_file o d w)) = trace w ++ [FileWrite TEMPLATE_FILENAME].
Proof. unfold write_file. destruct o; reflexivity. Qed.

Lemma write_file_ok (o : WriteOutcome) (d : FileContent) (w w' : World) :
  write_file o d w = (Ok tt, w') -> template_file w' = Some d.
Proof.
  unfold write_file. destruct o; intros E; inversion E. reflexivity.
Qed.

Lemma download_template_leaves_file (env : Env) (w w' : World) :
  download_template env w = (Ok tt, w') ->
  exists c, template_file w' = Some c.
Proof.
  destruct (template_file w) as [c|] eqn:Hf.
  - rewrite (download_template_cached env w c Hf). intros E. inversion E.
    subst. eauto.
  - rewrite (download_template_missing env w Hf).
    destruct (http_get env TEMPLATE_URL) as [e|r];
      [| destruct (status_ok r); [destruct (write_download env)|]];
      intros E;
      first [ apply write_file_ok in E; rewrite E; eexists; reflexivity
            | inversion E; eexists; reflexivity ].
Qed.

Lemma download_template_one_request (env : Env) (w : World) :
  (http_gets (trace (snd (download_template env w))) <=
   http_gets (trace w) + 1)%nat.
Proof.
  destruct (template_file w) as [c|] eqn:Hf.
  - rewrite (download_template_cached env w c Hf). simpl. lia.
  - rewrite (download_template_missing env w Hf).
    destruct (http_get env TEMPLATE_URL) as [e|r];
      [| destruct (status_ok r); [destruct (write_download env)|]];
      rewrite ?write_file_trace; cbn [snd trace]; count_events.
Qed.

(** C8. [download_template] is cache-first and idempotent.  When the cache
    file exists the call returns at once: no request, no write, no message,
    file and trace untouched.  A call that returns leaves a cache file
    behind, so a second call right after it is a no-op: two calls in sequence
    are the first call alone, and together they make at most one HTTP
    request. *)
Theorem download_template_cache_first_idempotent :
  (forall (env : Env) (w : World) (c : FileContent),
      template_file w = Some c -> download_template env w = (Ok tt, w)) /\
  (forall (env : Env) (w w' : World),
      download_template env w = (Ok tt, w') ->
      exists c, template_file w' = Some c) /\
  (forall (env1 env2 : Env) (w : World),
      (download_template env1 ;; download_template env2) w =
      download_template env1 w) /\
  (forall (env1 env2 : Env) (w : World),
      (http_gets (trace (snd ((download_template env1 ;;
                               download_template env2) w))) <=
       http_gets (trace w) + 1)%nat).
Proof.
  assert (Hseq : forall env1 env2 w,
             (download_template env1 ;; download_template env2) w =
             download_template env1 w).
  { intros env1 env2 w. unfold bind at 1.
    destruct (download_template env1 w) as [[[]|e|] w'] eqn:E; try reflexivity.
    destruct (download_template_leaves_file env1 w w' E) as [c Hc].
    apply (download_template_cached env2 w' c Hc). }
  split; [exact download_template_cached|].
  split; [exact download_template_leaves_file|].
  split; [exact Hseq|].
  intros env1 env2 w. rewrite Hseq. apply download_template_one_request.
Qed.

(** ** Alpha compositing *)

Lemma composite_pixel_transparent (dst src : RGBA) :
  alpha src = 0 -> PIL.composite_pixel dst src = dst.
Proof. intros Ha. unfold PIL.composite_pixel. now rewrite Ha. Qed.

(** One colour band of [composite_pixel] under an opaque source. *)
Lemma opaque_band (c : Z) :
  byte_range c ->
  PIL.u8 (Z.shiftr
            (PIL.SHIFTFORDIV255
               (PIL.u32 (PIL.u32 (c * 32640) + Z.shiftl 128 7))) 7) = c.
Proof.
  intros Hc. apply Z.eqb_eq.
  apply (byte_forall
           (fun c => PIL.u8 (Z.shiftr
                               (PIL.SHIFTFORDIV255
                                  (PIL.u32 (PIL.u32 (c * 32640) +
                                            Z.shiftl 128 7))) 7) =? c));
    [|assumption].
  vm_compute. reflexivity.
Qed.

Lemma composite_pixel_opaque (dst src : RGBA) :
  alpha src = 255 -> valid_pixel src -> PIL.composite_pixel dst src = src.
Proof.
  intros Ha (Hr & Hg & Hb & _). unfold PIL.composite_pixel. rewrite Ha.
  change (255 =? 0) with false. cbv iota zeta.
  change (255 - 255) with 0. rewrite Z.mul_0_r.
  change (PIL.u32 (255 * 255 * 255 * 128 / PIL.u32 (255 * 255 + PIL.u32 0)))
    with 32640.
  change (PIL.u32 (255 * 128 - 32640)) with 0.
  rewrite !Z.mul_0_r, !Z.add_0_r.
  rewrite !opaque_band by assumption.
  change (PIL.u8 (PIL.SHIFTFORDIV255
                    (PIL.u32 (PIL.u32 (255 * 255 + PIL.u32 0) + 128))))
    with 255.
  destruct src as [r g b a]. simpl in Ha. subst a. reflexivity.
Qed.

Lemma clip8_id (v : Z) : byte_range v -> PIL.clip8 v = v.
Proof.
  unfold byte_range, PIL.clip8. intros Hv.
  destruct (Z.ltb_spec v 0); [lia|]. destruct (Z.gtb_spec v 255); lia.
Qed.

Section Overlay.
Variable lanczos : Image RGBA -> Z * Z -> Z -> Z -> RGBA.
Variable decode : bytes -> PyExc + Image RGBA.

Lemma fit_overlay_size (overlay : Image RGBA) :
  size (fit_overlay lanczos overlay) = (ROBLOX_WIDTH, ROBLOX_HEIGHT).
Proof.
  unfold fit_overlay.
  destruct (size_eqb (size overlay) (ROBLOX_WIDTH, ROBLOX_HEIGHT)) eqn:E;
    cbn [negb].
  - now apply size_eqb_eq in E.
  - apply resize_size.
Qed.

Lemma fit_overlay_same_size (overlay : Image RGBA) :
  size overlay = (ROBLOX_WIDTH, ROBLOX_HEIGHT) ->
  fit_overlay lanczos overlay = overlay.
Proof.
  intros E. unfold fit_overlay. rewrite E, size_eqb_refl. reflexivity.
Qed.

Lemma fit_overlay_valid (overlay : Image RGBA) :
  valid_image overlay -> valid_image (fit_overlay lanczos overlay).
Proof.
  intros Hv. unfold fit_overlay.
  destruct (negb _); [now apply resize_valid | assumption].
Qed.

(** With a filter that keeps flat alpha planes, fitting keeps an overlay
    fully transparent, or fully opaque. *)
Lemma fit_overlay_flat_alpha (overlay : Image RGBA) (a : Z) :
  keeps_flat_alpha lanczos -> nonempty overlay -> a = 0 \/ a = 255 ->
  (forall x y, in_bounds overlay x y -> alpha (pix overlay x y) = a) ->
  forall x y, in_bounds (fit_overlay lanczos overlay) x y ->
              alpha (pix (fit_overlay lanczos overlay) x y) = a.
Proof.
  intros Hk Hne Ha Hflat x y. unfold fit_overlay.
  destruct (negb _); [|apply Hflat].
  unfold PIL.resize. destruct (size_eqb _ _); [apply Hflat|].
  intros _. cbn [pix PIL.clip_pixel alpha].
  rewrite (Hk overlay _ a x y Hne Ha Hflat).
  apply clip8_id. unfold byte_range. lia.
Qed.

Lemma overlay_attempt_not_stopped (base : Image RGBA)
      (file : option FileContent) :
  overlay_attempt lanczos decode base file <> Stopped.
Proof.
  unfold overlay_attempt, load_overlay, PIL.alpha_composite.
  destruct file as [[b|img]|]; cbn [of_sum rbind]; try discriminate.
  - destruct (decode b); cbn [of_sum rbind]; [discriminate|].
    destruct (size_eqb _ _); discriminate.
  - destruct (size_eqb _ _); discriminate.
Qed.

(** [apply_template_overlay] in terms of what its [try] body yields. *)
Lemma apply_template_overlay_eq (base : Image RGBA) (w : World) :
  apply_template_overlay lanczos decode base w =
  match overlay_attempt lanczos decode base (template_file w) with
  | Ok final => (Ok final, logged w [FileRead TEMPLATE_FILENAME])
  | Raise e =>
      (Ok base,
       logged w [FileRead TEMPLATE_FILENAME;
                 StWarning "Could not apply overlay" (Some e)])
  | Stopped => (Stopped, logged w [FileRead TEMPLATE_FILENAME])
  end.
Proof.
  unfold apply_template_overlay, overlay_attempt, load_overlay, fit_overlay,
    logged.
  run_app.
  destruct (template_file w) as [[b|img]|];
    [destruct (decode b) as [e|overlay]| |];
    repeat (progress cbn [of_sum rbind template_file trace]);
    try (destruct (PIL.alpha_composite base _) as [final|e|]);
    same_world.
Qed.

(** Compositing onto a base of another size is refused. *)
Lemma overlay_attempt_size_mismatch (base overlay : Image RGBA)
      (file : option FileContent) :
  load_overlay decode file = inr overlay ->
  size base <> (ROBLOX_WIDTH, ROBLOX_HEIGHT) ->
  overlay_attempt lanczos decode base file =
    Raise (ValueError "images do not match").
Proof.
  intros Hl Hs. unfold overlay_attempt. rewrite Hl. cbn [of_sum rbind].
  unfold PIL.alpha_composite. rewrite fit_overlay_size.
  destruct (size_eqb (size base) _) eqn:E; [|reflexivity].
  apply size_eqb_eq in E. contradiction.
Qed.

Lemma overlay_attempt_composites (base overlay : Image RGBA)
      (file : option FileContent) :
  load_overlay decode file = inr overlay ->
  size base = (ROBLOX_WIDTH, ROBLOX_HEIGHT) ->
  overlay_attempt lanczos decode base file =
    Ok (mkImage (size base)
          (fun x y => PIL.composite_pixel
                        (pix base x y)
                        (pix (fit_overlay lanczos overlay) x y))).
Proof.
  intros Hl Hs. unfold overlay_attempt. rewrite Hl. cbn [of_sum rbind].
  unfold PIL.alpha_composite. rewrite fit_overlay_size, Hs, size_eqb_refl.
  reflexivity.
Qed.

(** C6. On a 585x559 base canvas, with a filter that keeps flat alpha
    planes: if the overlay loaded from the cache file is fully transparent,
    [apply_template_overlay] returns, without warning, a canvas
    pixel-identical to the base; if it is fully opaque, it returns a canvas
    pixel-identical to the overlay as fitted to 585x559, which is the
    overlay itself when it already has that size. *)
Theorem apply_template_overlay_transparent_and_opaque
        (base overlay : Image RGBA) (w : World) :
  keeps_flat_alpha lanczos ->
  size base = (585, 559) ->
  load_overlay decode (template_file w) = inr overlay ->
  nonempty overlay -> valid_image overlay ->
  (fully_transparent overlay ->
   exists final,
     apply_template_overlay lanczos decode base w =
       (Ok final, logged w [FileRead TEMPLATE_FILENAME]) /\
     same_pixels final base) /\
  (fully_opaque overlay ->
   exists final,
     apply_template_overlay lanczos decode base w =
       (Ok final, logged w [FileRead TEMPLATE_FILENAME]) /\
     size final = (585, 559) /\
     same_pixels final (fit_overlay lanczos overlay) /\
     (size overlay = (585, 559) -> same_pixels final overlay)).
Proof.
  intros Hk Hs Hl Hne Hv.
  pose proof (overlay_attempt_composites base overlay _ Hl Hs) as Hatt.
  pose proof (apply_template_overlay_eq base w) as Happ.
  rewrite Hatt in Happ.
  assert (Hin : forall x y, in_bounds base x y ->
                            in_bounds (fit_overlay lanczos overlay) x y).
  { intros x y. unfold in_bounds, width, height.
    now rewrite fit_overlay_size, Hs. }
  split; intros Hflat; eexists; (split; [exact Happ|]).
  - split; [reflexivity|]. intros x y Hxy. cbn [pix].
    apply composite_pixel_transparent.
    apply (fit_overlay_flat_alpha overlay 0 Hk Hne (or_introl eq_refl) Hflat).
    apply Hin. exact Hxy.
  - assert (Hsame : same_pixels
                      (mkImage (size base)
                         (fun x y => PIL.composite_pixel (pix base x y)
                                       (pix (fit_overlay lanczos overlay) x y)))
                      (fit_overlay lanczos overlay)).
    { split; [cbn [size]; now rewrite fit_overlay_size|].
      intros x y Hxy. cbn [pix]. apply composite_pixel_opaque.
      - apply (fit_overlay_flat_alpha overlay 255 Hk Hne
                 (or_intror eq_refl) Hflat).
        apply Hin. exact Hxy.
      - apply fit_overlay_valid; [exact Hv|]. apply Hin. exact Hxy. }
    split; [exact Hs|]. split; [exact Hsame|].
    intros Hos. destruct Hsame as [Hsz Hpx]. split.
    + cbn [size]. now rewrite Hs, Hos.
    + intros x y Hxy. rewrite (Hpx x y Hxy).
      now rewrite (fit_overlay_same_size overlay Hos).
Qed.

End Overlay.

(** ** The steps of [main] *)

Lemma logged_logged (w : World) (a b : list Event) :
  logged (logged w a) b = logged w (a ++ b).
Proof. unfold logged. cbn [template_file trace]. now rewrite app_assoc. Qed.

Lemma logged_nil (w : World) : logged w [] = w.
Proof. unfold logged. rewrite app_nil_r. now destruct w. Qed.

(** [get_openai_client]: the key when the secret is there and not empty;
    otherwise an error message and [st.stop()]. *)
Lemma get_openai_client_eq (env : Env) (w : World) :
  get_openai_client env w =
  match secrets_get env with
  | inr (Some key) =>
      if py_not key then
        (Stopped,
         logged w [SecretsGet "OPENAI_API_KEY";
                   StError "OpenAI API Key not found in .streamlit/secrets.toml"
                           None])
      else (Ok key, logged w [SecretsGet "OPENAI_API_KEY"])
  | inr None =>
      (Stopped,
       logged w [SecretsGet "OPENAI_API_KEY";
                 StError "OpenAI API Key not found in .streamlit/secrets.toml"
                         None])
  | inl e =>
      (Stopped,
       logged w [SecretsGet "OPENAI_API_KEY";
                 StError "Error initializing OpenAI" (Some e)])
  end.
Proof.
  unfold get_openai_client, logged. run_app.
  destruct (secrets_get env) as [e|[key|]];
    repeat (progress cbn [of_sum template_file trace]);
    try (destruct (py_not key)); same_world.
Qed.

Section Main.
Variable lanczos : Image RGBA -> Z * Z -> Z -> Z -> RGBA.
Variable decode : bytes -> PyExc + Image RGBA.

(** [generate_image]: the image, or [None] after an error message, with the
    requests made on the way. *)
Lemma generate_image_eq (env : Env) (client prompt : string) (w : World) :
  generate_image decode env client prompt w =
  match generation_result decode env prompt with
  | inr img => (Ok (Some img), logged w (generation_events env prompt))
  | inl e =>
      (Ok None,
       logged w (generation_events env prompt ++
                 [StError "Image generation failed" (Some e)]))
  end.
Proof.
  unfold generate_image, generation_result, generation_events, logged.
  run_app.
  destruct (images_generate env prompt) as [e|[|url rest]];
    repeat (progress cbn [of_sum template_file trace]); try same_world.
  destruct (http_get env url) as [e|r];
    repeat (progress cbn [of_sum template_file trace]); try same_world.
  destruct (status_ok r);
    repeat (progress cbn [of_sum template_file trace]); try same_world.
  destruct (decode (content r)) as [e|img]; same_world.
Qed.

(** [main] once the template step has returned. *)
Lemma main_after_template (env : Env) (prompt : string) (mode : Mode)
      (generate_btn : bool) (w w0 : World) :
  download_template env w = (Ok tt, w0) ->
  main lanczos decode env prompt mode generate_btn w =
  (if generate_btn then
     if py_not prompt then
       st_warning "Please enter a design description." None ;; ret tt
     else
       client <- get_openai_client env ;;
       ai_image <- generate_image decode env client prompt ;;
       match ai_image with
       | Some ai_image =>
           base_image <- lift (match mode with
                               | LogoMode =>
                                   create_logo_mode_image lanczos ai_image
                               | PatternMode =>
                                   create_pattern_mode_image lanczos ai_image
                               end) ;;
           final_image <- apply_template_overlay lanczos decode base_image ;;
           st_success "Shirt generated!" ;;
           emit (StImage final_image
                   (String.append "Roblox Shirt - " (mode_label mode))) ;;
           emit (StDownloadButton (SavedPNG final_image)
                   "roblox_shirt.png" "image/png")
       | None => ret tt
       end
   else ret tt)%app w0.
Proof.
  intros Hd. unfold main. unfold bind at 1. rewrite Hd. reflexivity.
Qed.

(** When the template step itself raises, [main] ends there. *)
Lemma main_template_raises (env : Env) (prompt : string) (mode : Mode)
      (generate_btn : bool) (w w0 : World) (e : PyExc) :
  download_template env w = (Raise e, w0) ->
  main lanczos decode env prompt mode generate_btn w = (Raise e, w0).
Proof.
  intros Hd. unfold main. unfold bind at 1. rewrite Hd. reflexivity.
Qed.

Lemma download_template_not_stopped (env : Env) (w w0 : World) :
  download_template env w <> (Stopped, w0).
Proof.
  destruct (template_file w) as [c|] eqn:Hf.
  - rewrite (download_template_cached env w c Hf). discriminate.
  - rewrite (download_template_missing env w Hf). unfold write_file.
    destruct (http_get env TEMPLATE_URL) as [e|r];
      [| destruct (status_ok r); [destruct (write_download env)|]];
      try destruct (save_placeholder env); discriminate.
Qed.

Lemma download_template_no_generator (env : Env) (w : World) :
  generator_calls (trace (snd (download_template env w))) =
  generator_calls (trace w).
Proof.
  destruct (template_file w) as [c|] eqn:Hf.
  - now rewrite (download_template_cached env w c Hf).
  - rewrite (download_template_missing env w Hf).
    destruct (http_get env TEMPLATE_URL) as [e|r];
      [| destruct (status_ok r); [destruct (write_download env)|]];
      rewrite ?write_file_trace; cbn [snd trace]; count_events.
Qed.

(** C1, as amended. For the empty prompt and either mode the generator is
    never called: the number of generator calls in the trace is unchanged.
    The template step runs before the prompt is looked at.  When it returns
    (the cache file is there, or the download succeeds, or the placeholder
    is saved) the warning asking for a description is the only thing that
    follows, so with the cache file in place the run makes no external call
    at all.  When it raises (no cache file, the download attempt fails and
    saving the placeholder fails too) the run ends there with the exception
    of the save, and no warning is shown. *)
Theorem empty_prompt_rejected_before_generator (env : Env) (mode : Mode)
        (w : World) :
  (forall w0,
      download_template env w = (Ok tt, w0) ->
      main lanczos decode env EmptyString mode true w =
        (Ok tt, logged w0 [StWarning "Please enter a design description." None]))
  /\
  (forall c,
      template_file w = Some c ->
      main lanczos decode env EmptyString mode true w =
        (Ok tt, logged w [StWarning "Please enter a design description." None]))
  /\
  generator_calls
    (trace (snd (main lanczos decode env EmptyString mode true w))) =
  generator_calls (trace w)
  /\
  (forall e w0,
      download_template env w = (Raise e, w0) ->
      main lanczos decode env EmptyString mode true w = (Raise e, w0))
  /\
  match template_file w, download_failure env, save_placeholder env with
  | None, Some cause, WriteFails e left_behind =>
      exists before,
        download_template env w =
          (Raise e,
           mkWorld left_behind
             (trace w ++ [HttpGet TEMPLATE_URL] ++ before ++
              [StError "Failed to download template" (Some cause);
               StInfo "Creating a transparent placeholder template...";
               FileWrite TEMPLATE_FILENAME]))
  | _, _, _ => exists w0, download_template env w = (Ok tt, w0)
  end.
Proof.
  assert (H1 : forall w0,
             download_template env w = (Ok tt, w0) ->
             main lanczos decode env EmptyString mode true w =
             (Ok tt, logged w0 [StWarning "Please enter a design description."
                                          None])).
  { intros w0 Hd. rewrite (main_after_template _ _ _ _ _ _ Hd). reflexivity. }
  split; [exact H1|]. split; [|split; [|split]].
  - intros c Hc. apply H1. now apply download_template_cached with (c := c).
  - pose proof (download_template_no_generator env w) as Hg.
    destruct (download_template env w) as [[[]|e|] w0] eqn:Hd.
    + rewrite (H1 w0 eq_refl). cbn [snd logged trace] in *.
      rewrite <- Hg. count_events.
    + rewrite (main_template_raises _ _ _ _ _ _ _ Hd). exact Hg.
    + exfalso. exact (download_template_not_stopped env w w0 Hd).
  - intros e w0 Hd. exact (main_template_raises _ _ _ _ _ _ _ Hd).
  - destruct (template_file w) as [c|] eqn:Hf.
    + exists w. now apply download_template_cached with (c := c).
    + rewrite (download_template_missing env w Hf). unfold download_failure.
      destruct (http_get env TEMPLATE_URL) as [e|r];
        [| destruct (status_ok r);
           [destruct (write_download env) as [|e left_behind]|]];
        try destruct (save_placeholder env) as [|e' left'];
        unfold write_file; cbn [template_file trace];
        try (eexists; reflexivity).
      * exists []. same_world.
      * exists [FileWrite TEMPLATE_FILENAME]. same_world.
      * exists []. same_world.
Qed.

(** C9. For a non-empty prompt, once the template step has returned and the
    API key is found: if the generator fails at any step with exception [e],
    the run ends after the error message that reports [e].  Nothing else
    follows: the template file is not read for the overlay, no image and no
    download button are shown, and the cache file is as the template step
    left it. *)
Theorem generation_failure_halts_pipeline (env : Env) (prompt key : string)
        (mode : Mode) (w w0 : World) (e : PyExc) :
  py_not prompt = false ->
  download_template env w = (Ok tt, w0) ->
  secrets_get env = inr (Some key) ->
  py_not key = false ->
  generation_result decode env prompt = inl e ->
  let after_template :=
    [SecretsGet "OPENAI_API_KEY"] ++ generation_events env prompt ++
    [StError "Image generation failed" (Some e)] in
  main lanczos decode env prompt mode true w =
    (Ok tt, logged w0 after_template) /\
  existsb is_canvas_event after_template = false.
Proof.
  intros Hp Hd Hs Hk Hg after_template. split.
  - rewrite (main_after_template _ _ _ _ _ _ Hd). rewrite Hp.
    unfold bind at 1. rewrite get_openai_client_eq, Hs, Hk.
    unfold bind at 1. rewrite generate_image_eq, Hg.
    unfold ret. rewrite logged_logged. reflexivity.
  - unfold after_template, generation_events.
    destruct (images_generate env prompt) as [e'|[|url rest]]; reflexivity.
Qed.

(** A run that gets an image from the generator, up to the overlay step. *)
Lemma main_after_generation (env : Env) (prompt key : string) (mode : Mode)
      (w w0 : World) (ai_image base : Image RGBA) :
  py_not prompt = false ->
  download_template env w = (Ok tt, w0) ->
  secrets_get env = inr (Some key) ->
  py_not key = false ->
  generation_result decode env prompt = inr ai_image ->
  match mode with
  | LogoMode => create_logo_mode_image lanczos ai_image
  | PatternMode => create_pattern_mode_image lanczos ai_image
  end = Ok base ->
  main lanczos decode env prompt mode true w =
  (final_image <- apply_template_overlay lanczos decode base ;;
   st_success "Shirt generated!" ;;
   emit (StImage final_image
           (String.append "Roblox Shirt - " (mode_label mode))) ;;
   emit (StDownloadButton (SavedPNG final_image)
           "roblox_shirt.png" "image/png"))%app
    (logged w0 ([SecretsGet "OPENAI_API_KEY"] ++ generation_events env prompt)).
Proof.
  intros Hp Hd Hs Hk Hg Hl.
  rewrite (main_after_template _ _ _ _ _ _ Hd). rewrite Hp.
  unfold bind at 1. rewrite get_openai_client_eq, Hs, Hk.
  unfold bind at 1. rewrite generate_image_eq, Hg.
  unfold bind at 1. unfold lift. rewrite Hl. rewrite logged_logged.
  reflexivity.
Qed.

(** C7. [apply_template_overlay] never raises and never stops the script.
    Whenever a step of its [try] body raises [e] (the cache file is missing,
    its bytes do not decode, or the base and the fitted overlay differ in
    size) it returns the base image itself after a warning that carries
    [e]; otherwise it returns the composite without warning.  A run of
    [main] that reached the overlay step therefore always goes on to show
    an image and the download button. *)
Theorem apply_template_overlay_degrades_gracefully (base : Image RGBA)
        (w : World) :
  (forall e,
      overlay_attempt lanczos decode base (template_file w) = Raise e ->
      apply_template_overlay lanczos decode base w =
        (Ok base,
         logged w [FileRead TEMPLATE_FILENAME;
                   StWarning "Could not apply overlay" (Some e)])) /\
  (forall final,
      overlay_attempt lanczos decode base (template_file w) = Ok final ->
      apply_template_overlay lanczos decode base w =
        (Ok final, logged w [FileRead TEMPLATE_FILENAME])) /\
  (exists img w', apply_template_overlay lanczos decode base w = (Ok img, w')) /\
  (template_file w = None ->
   overlay_attempt lanczos decode base (template_file w) =
     Raise FileNotFoundError) /\
  (forall b e,
      template_file w = Some (RawBytes b) -> decode b = inl e ->
      overlay_attempt lanczos decode base (template_file w) = Raise e) /\
  (forall overlay,
      load_overlay decode (template_file w) = inr overlay ->
      size base <> (585, 559) ->
      overlay_attempt lanczos decode base (template_file w) =
        Raise (ValueError "images do not match")) /\
  (forall env prompt key mode w_start w0 ai_image,
      py_not prompt = false ->
      download_template env w_start = (Ok tt, w0) ->
      secrets_get env = inr (Some key) ->
      py_not key = false ->
      generation_result decode env prompt = inr ai_image ->
      match mode with
      | LogoMode => create_logo_mode_image lanczos ai_image
      | PatternMode => create_pattern_mode_image lanczos ai_image
      end = Ok base ->
      exists final w3,
        main lanczos decode env prompt mode true w_start =
          (Ok tt,
           logged w3 [StSuccess "Shirt generated!";
                      StImage final
                        (String.append "Roblox Shirt - " (mode_label mode));
                      StDownloadButton (SavedPNG final)
                        "roblox_shirt.png" "image/png"])).
Proof.
  pose proof (apply_template_overlay_eq lanczos decode base w) as Happ.
  split; [intros e He; now rewrite Happ, He|].
  split; [intros final Hf; now rewrite Happ, Hf|].
  split.
  { pose proof (overlay_attempt_not_stopped lanczos decode base
                  (template_file w)) as Hns.
    destruct (overlay_attempt lanczos decode base (template_file w));
      [eauto | eauto | contradiction]. }
  split; [intros Hnone; now rewrite Hnone|].
  split.
  { intros b e Hfile Hdec. rewrite Hfile. unfold overlay_attempt, load_overlay.
    now rewrite Hdec. }
  split; [intros overlay; apply overlay_attempt_size_mismatch|].
  intros env prompt key mode w_start w0 ai_image Hp Hd Hs Hk Hg Hl.
  rewrite (main_after_generation env prompt key mode w_start w0 ai_image base
             Hp Hd Hs Hk Hg Hl).
  set (w2 := logged w0 _).
  pose proof (apply_template_overlay_eq lanczos decode base w2) as Happ2.
  pose proof (overlay_attempt_not_stopped lanczos decode base
                (template_file w2)) as Hns.
  unfold bind at 1. rewrite Happ2.
  destruct (overlay_attempt lanczos decode base (template_file w2))
    as [final|e|]; [| |contradiction].
  - exists final, (logged w2 [FileRead TEMPLATE_FILENAME]).
    unfold bind, st_success, emit, logged. cbn [template_file trace].
    rewrite <- !app_assoc. reflexivity.
  - exists base, (logged w2 [FileRead TEMPLATE_FILENAME;
                             StWarning "Could not apply overlay" (Some e)]).
    unfold bind, st_success, emit, logged. cbn [template_file trace].
    rewrite <- !app_assoc. reflexivity.
Qed.

(** C10. When the download attempt fails and the placeholder is saved, the
    cache file holds a fully transparent image of exactly 585x559.  With that
    file in place [apply_template_overlay] composites the placeholder as it
    is (fitting leaves it alone, no resize) and the result is
    pixel-identical to the 585x559 base, whatever the base's alpha. *)
Theorem placeholder_overlay_leaves_canvas_unchanged (env : Env) (w : World)
        (base : Image RGBA) (e : PyExc) :
  template_file w = None ->
  download_failure env = Some e ->
  save_placeholder env = WriteOk ->
  size base = (585, 559) ->
  exists (w1 : World) (placeholder : Image RGBA),
    download_template env w = (Ok tt, w1) /\
    template_file w1 = Some (SavedPNG placeholder) /\
    size placeholder = (585, 559) /\
    (forall x y, pix placeholder x y = mkRGBA 0 0 0 0) /\
    forall w2,
      template_file w2 = Some (SavedPNG placeholder) ->
      load_overlay decode (template_file w2) = inr (PIL.copy placeholder) /\
      fit_overlay lanczos (PIL.copy placeholder) = PIL.copy placeholder /\
      exists final,
        PIL.alpha_composite base (PIL.copy placeholder) = Ok final /\
        apply_template_overlay lanczos decode base w2 =
          (Ok final, logged w2 [FileRead TEMPLATE_FILENAME]) /\
        same_pixels final base.
Proof.
  intros Hnone Hfail Hsave Hs.
  set (placeholder := PIL.new (ROBLOX_WIDTH, ROBLOX_HEIGHT) (mkRGBA 0 0 0 0)).
  assert (Hd : exists w1, download_template env w = (Ok tt, w1) /\
                          template_file w1 = Some (SavedPNG placeholder)).
  { rewrite (download_template_missing env w Hnone).
    unfold download_failure in Hfail. unfold write_file. rewrite Hsave.
    destruct (http_get env TEMPLATE_URL) as [e'|r];
      [| destruct (status_ok r); [destruct (write_download env)|]];
      try discriminate; eexists; split; reflexivity. }
  destruct Hd as (w1 & Hd & Hf1).
  exists w1, placeholder. split; [exact Hd|]. split; [exact Hf1|].
  split; [reflexivity|]. split; [reflexivity|].
  intros w2 Hf2.
  assert (Hl : load_overlay decode (template_file w2) =
               inr (PIL.copy placeholder)) by now rewrite Hf2.
  split; [exact Hl|]. split; [reflexivity|].
  pose proof (overlay_attempt_composites lanczos decode base
                (PIL.copy placeholder) _ Hl Hs) as Hatt.
  eexists. split; [|split].
  - unfold PIL.alpha_composite. rewrite Hs. reflexivity.
  - rewrite apply_template_overlay_eq, Hatt. rewrite Hs. reflexivity.
  - split; [cbn [size]; now rewrite Hs|].
    intros x y _. reflexivity.
Qed.

End Main.

(** * The theorems at sample inputs *)

Lemma sample_asset_is_valid : valid_image sample_asset.
Proof.
  intros x y _. unfold valid_pixel, byte_range. simpl. lia.
Defined.

Lemma sample_lanczos_keeps_flat_alpha : keeps_flat_alpha sample_lanczos.
Proof.
  intros im sz a x y [Hw Hh] _ Hflat. unfold sample_lanczos.
  apply Hflat. unfold in_bounds. lia.
Defined.

(** A whitespace-only prompt is not rejected: the key is looked up and the
    generator is called with it. *)
Lemma blank_prompt_reaches_generator :
  is_blank " " = true /\
  main sample_lanczos sample_decode offline_env " " LogoMode true cached_world =
    (Ok tt,
     logged cached_world
       [SecretsGet "OPENAI_API_KEY"; ImagesGenerate " ";
        StError "Image generation failed" (Some APIError)]) /\
  generator_calls
    (trace (snd (main sample_lanczos sample_decode offline_env " " LogoMode
                   true cached_world))) = 1%nat.
Proof. repeat split. Qed.

Lemma empty_prompt_rejected_witness :
  main sample_lanczos sample_decode offline_env EmptyString LogoMode true
       cached_world =
    (Ok tt,
     logged cached_world
       [StWarning "Please enter a design description." None]) /\
  main sample_lanczos sample_decode read_only_env EmptyString PatternMode true
       fresh_world =
    (Raise OSError,
     mkWorld None
       [HttpGet TEMPLATE_URL;
        StError "Failed to download template" (Some RequestException);
        StInfo "Creating a transparent placeholder template...";
        FileWrite TEMPLATE_FILENAME]).
Proof.
  split.
  - apply (proj1 (proj2 (empty_prompt_rejected_before_generator
                           sample_lanczos sample_decode offline_env LogoMode
                           cached_world))
             (SavedPNG transparent_placeholder)).
    reflexivity.
  - apply (proj1 (proj2 (proj2 (proj2
             (empty_prompt_rejected_before_generator
                sample_lanczos sample_decode read_only_env PatternMode
                fresh_world))))).
    reflexivity.
Defined.

Lemma layout_canvas_witness :
  valid_image sample_asset /\
  (exists canvas,
      create_logo_mode_image sample_lanczos sample_asset = Ok canvas /\
      size canvas = (585, 559)) /\
  (exists canvas,
      create_pattern_mode_image sample_lanczos sample_asset = Ok canvas /\
      size canvas = (585, 559)).
Proof.
  split; [exact sample_asset_is_valid|].
  apply (layout_canvas_is_585_by_559 sample_lanczos sample_asset).
  intros x y _. unfold valid_pixel, byte_range. simpl. lia.
Defined.

Lemma sample_logo_is_valid : valid_image sample_logo.
Proof.
  intros x y _. unfold sample_logo. cbn [pix].
  destruct (x <? 32); [|destruct (x <? 64)];
    unfold valid_pixel, byte_range; cbn [red green blue alpha]; lia.
Defined.

Lemma logo_composition_witness :
  valid_image sample_logo /\
  exists canvas : Image RGBA,
    create_logo_mode_image sample_lanczos sample_logo = Ok canvas /\
    size canvas = (585, 559) /\
    pix canvas 0 0 = mkRGBA 71 92 98 255 /\
    pix canvas 231 74 = mkRGBA 71 92 98 255 /\
    pix canvas 263 74 = mkRGBA 97 73 94 200 /\
    pix canvas 295 201 = mkRGBA 60 160 140 255 /\
    pix canvas 359 74 = mkRGBA 71 92 98 255.
Proof.
  split; [exact sample_logo_is_valid|].
  destruct (create_logo_mode_image_composition sample_lanczos sample_logo
              sample_logo_is_valid)
    as (canvas & _ & _ & _ & _ & E & _ & S & Hpix & _).
  assert (Hin : forall x y, 0 <= x < 585 -> 0 <= y < 559 ->
                            in_bounds canvas x y).
  { intros x y Hx Hy. unfold in_bounds, width, height. rewrite S.
    cbn [fst snd]. split; assumption. }
  exists canvas. split; [exact E|]. split; [exact S|].
  repeat split.
  - eapply eq_trans;
      [exact (Hpix 0 0 (Hin 0 0 ltac:(lia) ltac:(lia)))
      | vm_compute; reflexivity].
  - eapply eq_trans;
      [exact (proj1 (Hpix 231 74 (Hin 231 74 ltac:(lia) ltac:(lia))))
      | vm_compute; reflexivity].
  - eapply eq_trans;
      [exact (proj1 (Hpix 263 74 (Hin 263 74 ltac:(lia) ltac:(lia))))
      | vm_compute; reflexivity].
  - eapply eq_trans;
      [exact (proj1 (Hpix 295 201 (Hin 295 201 ltac:(lia) ltac:(lia))))
      | vm_compute; reflexivity].
  - eapply eq_trans;
      [exact (Hpix 359 74 (Hin 359 74 ltac:(lia) ltac:(lia)))
      | vm_compute; reflexivity].
Defined.

Lemma average_color_witness :
  get_average_color black_white = Ok (127, 127, 127) /\
  get_average_color sample_asset = Ok (255, 0, 0).
Proof.
  split.
  - apply (proj2 (proj2 get_average_color_truncated_mean) black_white).
    + unfold nonempty, width, height. simpl. lia.
    + intros x y _. unfold valid_pixel, byte_range. simpl.
      destruct (x =? 0); simpl; lia.
    + unfold half_black_half_white.
      change (getdata black_white)
        with [mkRGBA 0 0 0 255; mkRGBA 255 255 255 255].
      split; [repeat constructor | reflexivity].
  - apply (proj1 (proj2 get_average_color_truncated_mean) sample_asset
             (255, 0, 0)).
    + unfold nonempty, width, height. simpl. lia.
    + intros x y _. unfold valid_pixel, byte_range. simpl. lia.
    + intros x y _. reflexivity.
Defined.

Lemma transparent_overlay_witness :
  exists final : Image RGBA,
    apply_template_overlay sample_lanczos sample_decode sample_base
                           cached_world =
      (Ok final, logged cached_world [FileRead TEMPLATE_FILENAME]) /\
    same_pixels final sample_base.
Proof.
  apply (proj1 (apply_template_overlay_transparent_and_opaque
                  sample_lanczos sample_decode sample_base
                  (PIL.copy transparent_placeholder) cached_world
                  sample_lanczos_keeps_flat_alpha eq_refl eq_refl
                  (conj eq_refl eq_refl)
                  (fun x y _ =>
                     conj (conj (Z.le_refl 0) (Zle_0_pos 255))
                       (conj (conj (Z.le_refl 0) (Zle_0_pos 255))
                          (conj (conj (Z.le_refl 0) (Zle_0_pos 255))
                             (conj (Z.le_refl 0) (Zle_0_pos 255))))))).
  intros x y _. reflexivity.
Defined.

Lemma overlay_missing_file_witness :
  apply_template_overlay sample_lanczos sample_decode sample_base fresh_world =
    (Ok sample_base,
     logged fresh_world
       [FileRead TEMPLATE_FILENAME;
        StWarning "Could not apply overlay" (Some FileNotFoundError)]).
Proof.
  apply (proj1 (apply_template_overlay_degrades_gracefully
                  sample_lanczos sample_decode sample_base fresh_world)).
  reflexivity.
Defined.

Lemma cached_template_witness :
  download_template offline_env cached_world = (Ok tt, cached_world).
Proof.
  apply (proj1 download_template_cache_first_idempotent offline_env
           cached_world (SavedPNG transparent_placeholder)).
  reflexivity.
Defined.

Lemma generation_failure_witness :
  main sample_lanczos sample_decode offline_env "golden dragon logo" LogoMode
       true cached_world =
    (Ok tt,
     logged cached_world
       [SecretsGet "OPENAI_API_KEY"; ImagesGenerate "golden dragon logo";
        StError "Image generation failed" (Some APIError)]).
Proof.
  exact (proj1 (generation_failure_halts_pipeline
                  sample_lanczos sample_decode offline_env
                  "golden dragon logo" "sk-test" LogoMode cached_world
                  cached_world APIError
                  eq_refl eq_refl eq_refl eq_refl eq_refl)).
Defined.

Lemma placeholder_witness :
  exists (w1 : World) (placeholder : Image RGBA),
    download_template offline_env fresh_world = (Ok tt, w1) /\
    template_file w1 = Some (SavedPNG placeholder) /\
    size placeholder = (585, 559).
Proof.
  destruct (placeholder_overlay_leaves_canvas_unchanged
              sample_lanczos sample_decode offline_env fresh_world sample_base
              RequestException eq_refl eq_refl eq_refl eq_refl)
    as (w1 & placeholder & Hd & Hf & Hs & _).
  exists w1, placeholder. repeat split; assumption.
Defined.
